(** * roomies: the group-management and explore pages

    A shallow embedding of the decision logic of two pages of the
    roommate-matching application:

    - the group-management page ([GroupCard] and [ActionCard] of
      [src/pages/manage.tsx]): the [disabled] and rendering conditions of
      the Remove, Delete and Leave buttons of a roommate group;
    - the explore page ([Profiles], in the second half of the same source
      file): the callback handed to [Array.prototype.filter] to select the
      profiles shown for a free-text query and a filter form.

    JavaScript values are modelled as follows.  A string is a [string] (its
    sequence of code units, taken in the Latin-1 range); a [number] holding an
    integer is a [Z]; a field that may be [undefined] or [null] is an
    [option]; a Prisma enum is an abstract type with decidable equality
    (class [PrismaEnums]), because the schema that declares the enums is not
    part of the pages. *)

From Stdlib Require Import ZArith Ascii.
From stdpp Require Import base decidable option list strings.

Local Open Scope Z_scope.

(** ** JavaScript built-ins used by the pages *)

Module Js.

(** Outcome of evaluating an expression that may throw. *)
Inductive Result (A : Type) : Type :=
| Ok (a : A)
| TypeError.
Global Arguments Ok {A} a.
Global Arguments TypeError {A}.

Definition bind {A B : Type} (r : Result A) (k : A → Result B) : Result B :=
  match r with
  | Ok a => k a
  | TypeError => TypeError
  end.

(** [typeof v !== "undefined"] for an optional boolean property. *)
Definition is_defined (v : option bool) : bool :=
  match v with
  | Some _ => true
  | None => false
  end.

(** [!v] for an optional boolean property: [undefined] is falsy. *)
Definition not (v : option bool) : bool :=
  match v with
  | Some b => negb b
  | None => true
  end.

(** [!!v] for a value that is an enum literal, [null] or [undefined].  An
    enum literal is a non-empty string at run time, hence truthy. *)
Definition truthy {A : Type} (v : option A) : bool :=
  match v with
  | Some _ => true
  | None => false
  end.

(** ToBoolean of a value that is [true], [false] or [undefined]. *)
Definition to_boolean (v : option bool) : bool :=
  match v with
  | Some b => b
  | None => false
  end.

(** [a !== b] on values of one enum type (or [null]). *)
Definition strict_ne {A : Type} `{EqDecision A} (a b : option A) : bool :=
  negb (bool_decide (a = b)).

(** [v ?? d]. *)
Definition nullish (v : option Z) (d : Z) : Z :=
  match v with
  | Some n => n
  | None => d
  end.

(** Lower-casing of one code unit of the Latin-1 range: [A]-[Z] and the
    accented capitals U+00C0-U+00DE (the multiplication sign U+00D7
    excepted) move up by 32, everything else is unchanged. *)
Definition lower_unit (c : ascii) : ascii :=
  let n := N_of_ascii c in
  if ((65 <=? n) && (n <=? 90) ||
      (192 <=? n) && (n <=? 222) && negb (n =? 215))%N
  then ascii_of_N (n + 32)
  else c.

(** [s.toLowerCase()], on strings of the Latin-1 range.  Outside that
    range the built-in depends on the neighbouring characters (the Greek
    final sigma), so no property below takes lower-casing to commute with
    concatenation: the query enters only through its lower-cased form. *)
Fixpoint toLowerCase (s : string) : string :=
  match s with
  | EmptyString => EmptyString
  | String c s' => String (lower_unit c) (toLowerCase s')
  end.

(** [s.startsWith(t)]. *)
Fixpoint startsWith (s t : string) {struct t} : bool :=
  match t, s with
  | EmptyString, _ => true
  | String _ _, EmptyString => false
  | String b t', String a s' => bool_decide (a = b) && startsWith s' t'
  end.

(** [s.includes(t)]: [t] occurs in [s] at some position. *)
Fixpoint includes (s t : string) : bool :=
  startsWith s t ||
  match s with
  | EmptyString => false
  | String _ s' => includes s' t
  end.

(** [o?.toLowerCase().includes(q.toLowerCase())]: the optional chain yields
    [undefined] when [o] is [null]. *)
Definition chain_includes (o : option string) (q : string) : option bool :=
  match o with
  | Some s => Some (includes (toLowerCase s) (toLowerCase q))
  | None => None
  end.

(** [o.toLowerCase()] on a value that may be [null]: reading a property of
    [null] throws. *)
Definition toLowerCase_of (o : option string) : Result string :=
  match o with
  | Some s => Ok (toLowerCase s)
  | None => TypeError
  end.

(** [xs.filter(cb)]: visits the elements in index order and appends the
    ones for which the callback returns a truthy value to a fresh array. *)
Definition filter {A : Type} (cb : A → bool) (xs : list A) : list A :=
  fold_left (λ kept x, if cb x then kept ++ [x] else kept) xs [].

(** The same loop for a callback that may throw: the first exception
    aborts the whole call. *)
Definition filter_throwing {A : Type} (cb : A → Result bool) (xs : list A)
  : Result (list A) :=
  fold_left
    (λ acc x,
       bind acc (λ kept,
       bind (cb x) (λ keep,
       Ok (if keep then kept ++ [x] else kept))))
    xs (Ok []).

End Js.

(** ** Enums of the Prisma client *)

(** The enums [School], [Sex], [Status] and [Volume] are imported from the
    generated Prisma client; their members are declared in the schema, which
    the pages do not show.  The pages only compare their values and, for
    [School], use the value as the string it is at run time. *)
Class PrismaEnums : Type := {
  School : Type;
  Sex : Type;
  Status : Type;
  Volume : Type;
  School_eq_dec :: EqDecision School;
  Sex_eq_dec :: EqDecision Sex;
  Status_eq_dec :: EqDecision Status;
  Volume_eq_dec :: EqDecision Volume;
  school_string : School → string;
}.

(** Modelled from the spec: the enum [Role] of the Prisma schema, of which
    the pages name [Role.ADMIN] only; the data model gives its members as
    ADMIN and MEMBER. *)
Inductive Role : Type :=
| ADMIN
| MEMBER.

#[global] Instance Role_eq_dec : EqDecision Role.
Proof. solve_decision. Defined.

(** ** The group-management page *)

(** An entry of [membership.group.members]. *)
Module Member.
Record t : Type := {
  id : string;
  role : Role;
  userId : string;
  name : option string;
}.
End Member.

Module Group.
Record t : Type := {
  members : list Member.t;
}.
End Group.

(** The value of [trpc.membership.getCurrent], once non-null. *)
Module Membership.
Record t : Type := {
  id : string;
  role : Role;
  userId : string;
  groupId : string;
  group : Group.t;
}.
End Membership.

(** [disabled] of the Remove button of [GroupCard], for one listed member. *)
Definition remove_disabled (membership : Membership.t) (member : Member.t) : bool :=
  bool_decide (Member.role member = ADMIN) ||
  bool_decide (Member.userId member = Membership.userId membership).

(** The Delete button of [ActionCard] is rendered under this condition. *)
Definition delete_rendered (membership : Membership.t) : bool :=
  bool_decide (Membership.role membership = ADMIN).

(** [disabled] of the Delete button. *)
Definition delete_disabled (membership : Membership.t) : bool :=
  negb (bool_decide (Membership.role membership = ADMIN)) ||
  (1 <? length (Group.members (Membership.group membership)))%nat.

(** [disabled] of the Leave button. *)
Definition leave_disabled (membership : Membership.t) : bool :=
  bool_decide (Membership.role membership = ADMIN).

(** An action is permitted when its button is on the page and enabled. *)
Definition canRemoveMember (membership : Membership.t) (targetMember : Member.t) : bool :=
  negb (remove_disabled membership targetMember).

Definition canDeleteGroup (membership : Membership.t) : bool :=
  delete_rendered membership && negb (delete_disabled membership).

Definition canLeaveGroup (membership : Membership.t) : bool :=
  negb (leave_disabled membership).

(** ** The explore page *)

(** The filter form's data, [z.infer<typeof ProfileSearchSchema>]: every
    property may be missing; the page starts from the empty object. *)
Module Filter.
Record t `{PrismaEnums} : Type := {
  alcohol : option bool;
  assigned_sex : option Sex;
  committed : option bool;
  day_volume : option Volume;
  drugs : option bool;
  minimum_neatness : option Z;
  minimum_social_energy_level : option Z;
  night_volume : option Volume;
  school : option School;
  snore : option bool;
  status : option Status;
}.

(** The object [{}]. *)
Definition empty `{PrismaEnums} : t := {|
  alcohol := None; assigned_sex := None; committed := None;
  day_volume := None; drugs := None; minimum_neatness := None;
  minimum_social_energy_level := None; night_volume := None;
  school := None; snore := None; status := None;
|}.
End Filter.

(** [profile.user]: the name and the e-mail address may be [null]. *)
Module User.
Record t : Type := {
  name : option string;
  email : option string;
  image : option string;
}.
End User.

(** A profile as the page's types have it.  [school] is read without a
    guard ([profile.school.toLowerCase()]), so its type has no [null]; the
    other enum properties are tested for truthiness before use and may be
    [null]. *)
Module Profile.
Record t `{PrismaEnums} : Type := {
  id : string;
  user : User.t;
  school : School;
  assigned_sex : option Sex;
  pronouns : option string;
  alcohol : bool;
  committed : bool;
  day_volume : option Volume;
  night_volume : option Volume;
  drugs : bool;
  neatness : Z;
  snore : bool;
  social_energy_level : Z;
  status : option Status;
}.
End Profile.

(** The guard of a checkbox property:
    [typeof filter.x !== "undefined" && !filter.x && profile.x]. *)
Definition flag_excludes (filter_x : option bool) (profile_x : bool) : bool :=
  Js.is_defined filter_x && Js.not filter_x && profile_x.

(** The guard of an enum property:
    [!!filter.x && !!profile.x && filter.x !== profile.x]. *)
Definition enum_excludes {A : Type} `{EqDecision A} (filter_x profile_x : option A) : bool :=
  Js.truthy filter_x && Js.truthy profile_x && Js.strict_ne filter_x profile_x.

(** [(filter.minimum_x ?? -10) + 10]. *)
Definition threshold (filter_minimum_x : option Z) : Z :=
  Js.nullish filter_minimum_x (-10) + 10.

(** The guard of a score: [(filter.minimum_x ?? -10) + 10 > profile.x]. *)
Definition score_excludes (filter_minimum_x : option Z) (profile_x : Z) : bool :=
  threshold filter_minimum_x >? profile_x.

(** The value returned when no guard fired, seen through ToBoolean:
    [name?.toLowerCase().includes(q) || email?.toLowerCase().includes(q) ||
     school.toLowerCase().includes(q)] with [q = query.toLowerCase()]. *)
Definition text_matches `{PrismaEnums} (query : string) (profile : Profile.t) : bool :=
  Js.to_boolean (Js.chain_includes (User.name (Profile.user profile)) query) ||
  Js.to_boolean (Js.chain_includes (User.email (Profile.user profile)) query) ||
  Js.includes (Js.toLowerCase (school_string (Profile.school profile)))
              (Js.toLowerCase query).

(** The callback of [profiles.filter] in [Profiles], guard by guard. *)
Definition callback `{PrismaEnums} (query : string) (filter : Filter.t)
    (profile : Profile.t) : bool :=
  if flag_excludes (Filter.alcohol filter) (Profile.alcohol profile) then false
  else if enum_excludes (Filter.assigned_sex filter) (Profile.assigned_sex profile) then false
  else if flag_excludes (Filter.committed filter) (Profile.committed profile) then false
  else if enum_excludes (Filter.day_volume filter) (Profile.day_volume profile) then false
  else if flag_excludes (Filter.drugs filter) (Profile.drugs profile) then false
  else if score_excludes (Filter.minimum_neatness filter) (Profile.neatness profile) then false
  else if enum_excludes (Filter.night_volume filter) (Profile.night_volume profile) then false
  else if enum_excludes (Filter.school filter) (Some (Profile.school profile)) then false
  else if flag_excludes (Filter.snore filter) (Profile.snore profile) then false
  else if score_excludes (Filter.minimum_social_energy_level filter)
                         (Profile.social_energy_level profile) then false
  else if enum_excludes (Filter.status filter) (Profile.status profile) then false
  else text_matches query profile.

(** [filteredProfiles] of [Profiles], as a function of what it reads (the
    spec's [filterProfiles(profiles, query, filter)]). *)
Definition filteredProfiles `{PrismaEnums} (profiles : list Profile.t)
    (query : string) (filter : Filter.t) : list Profile.t :=
  Js.filter (callback query filter) profiles.

(** Object spread with one checkbox property replaced:
    [{...filter, alcohol: v}] and so on. *)
Definition with_alcohol `{PrismaEnums} (v : option bool) (filter : Filter.t) : Filter.t := {|
  Filter.alcohol := v;
  Filter.assigned_sex := Filter.assigned_sex filter;
  Filter.committed := Filter.committed filter;
  Filter.day_volume := Filter.day_volume filter;
  Filter.drugs := Filter.drugs filter;
  Filter.minimum_neatness := Filter.minimum_neatness filter;
  Filter.minimum_social_energy_level := Filter.minimum_social_energy_level filter;
  Filter.night_volume := Filter.night_volume filter;
  Filter.school := Filter.school filter;
  Filter.snore := Filter.snore filter;
  Filter.status := Filter.status filter;
|}.

Definition with_committed `{PrismaEnums} (v : option bool) (filter : Filter.t) : Filter.t := {|
  Filter.alcohol := Filter.alcohol filter;
  Filter.assigned_sex := Filter.assigned_sex filter;
  Filter.committed := v;
  Filter.day_volume := Filter.day_volume filter;
  Filter.drugs := Filter.drugs filter;
  Filter.minimum_neatness := Filter.minimum_neatness filter;
  Filter.minimum_social_energy_level := Filter.minimum_social_energy_level filter;
  Filter.night_volume := Filter.night_volume filter;
  Filter.school := Filter.school filter;
  Filter.snore := Filter.snore filter;
  Filter.status := Filter.status filter;
|}.

Definition with_drugs `{PrismaEnums} (v : option bool) (filter : Filter.t) : Filter.t := {|
  Filter.alcohol := Filter.alcohol filter;
  Filter.assigned_sex := Filter.assigned_sex filter;
  Filter.committed := Filter.committed filter;
  Filter.day_volume := Filter.day_volume filter;
  Filter.drugs := v;
  Filter.minimum_neatness := Filter.minimum_neatness filter;
  Filter.minimum_social_energy_level := Filter.minimum_social_energy_level filter;
  Filter.night_volume := Filter.night_volume filter;
  Filter.school := Filter.school filter;
  Filter.snore := Filter.snore filter;
  Filter.status := Filter.status filter;
|}.

Definition with_snore `{PrismaEnums} (v : option bool) (filter : Filter.t) : Filter.t := {|
  Filter.alcohol := Filter.alcohol filter;
  Filter.assigned_sex := Filter.assigned_sex filter;
  Filter.committed := Filter.committed filter;
  Filter.day_volume := Filter.day_volume filter;
  Filter.drugs := Filter.drugs filter;
  Filter.minimum_neatness := Filter.minimum_neatness filter;
  Filter.minimum_social_energy_level := Filter.minimum_social_energy_level filter;
  Filter.night_volume := Filter.night_volume filter;
  Filter.school := Filter.school filter;
  Filter.snore := v;
  Filter.status := Filter.status filter;
|}.

(** A profile with its [user] replaced: [{...profile, user: u}]. *)
Definition with_user `{PrismaEnums} (u : User.t) (profile : Profile.t) : Profile.t := {|
  Profile.id := Profile.id profile;
  Profile.user := u;
  Profile.school := Profile.school profile;
  Profile.assigned_sex := Profile.assigned_sex profile;
  Profile.pronouns := Profile.pronouns profile;
  Profile.alcohol := Profile.alcohol profile;
  Profile.committed := Profile.committed profile;
  Profile.day_volume := Profile.day_volume profile;
  Profile.night_volume := Profile.night_volume profile;
  Profile.drugs := Profile.drugs profile;
  Profile.neatness := Profile.neatness profile;
  Profile.snore := Profile.snore profile;
  Profile.social_energy_level := Profile.social_energy_level profile;
  Profile.status := Profile.status profile;
|}.

(** The user with [null] name and e-mail address read as empty strings. *)
Definition nulls_as_empty (u : User.t) : User.t := {|
  User.name := Some (default EmptyString (User.name u));
  User.email := Some (default EmptyString (User.email u));
  User.image := User.image u;
|}.

(** No structured guard fires: the profile reaches the text test. *)
Definition passes_structured `{PrismaEnums} (filter : Filter.t) (profile : Profile.t) : bool :=
  negb (flag_excludes (Filter.alcohol filter) (Profile.alcohol profile)) &&
  negb (enum_excludes (Filter.assigned_sex filter) (Profile.assigned_sex profile)) &&
  negb (flag_excludes (Filter.committed filter) (Profile.committed profile)) &&
  negb (enum_excludes (Filter.day_volume filter) (Profile.day_volume profile)) &&
  negb (flag_excludes (Filter.drugs filter) (Profile.drugs profile)) &&
  negb (score_excludes (Filter.minimum_neatness filter) (Profile.neatness profile)) &&
  negb (enum_excludes (Filter.night_volume filter) (Profile.night_volume profile)) &&
  negb (enum_excludes (Filter.school filter) (Some (Profile.school profile))) &&
  negb (flag_excludes (Filter.snore filter) (Profile.snore profile)) &&
  negb (score_excludes (Filter.minimum_social_energy_level filter)
                       (Profile.social_energy_level profile)) &&
  negb (enum_excludes (Filter.status filter) (Profile.status profile)).

(** [t] occurs in [s] as a contiguous run of code units. *)
Definition substring_of (t s : string) : Prop :=
  ∃ before after : string, s = before +:+ t +:+ after.

(** ** The same callback on untyped data

    At run time nothing enforces the type of [profile.school]: the value
    handed to the callback may hold [null] there, as for the other enum
    properties.  [RawProfile.t] is a profile as the JavaScript engine sees
    it, and [callback_raw] evaluates the callback on it, with the exception
    that reading [toLowerCase] of [null] raises. *)
Module RawProfile.
Record t `{PrismaEnums} : Type := {
  id : string;
  user : User.t;
  school : option School;
  assigned_sex : option Sex;
  pronouns : option string;
  alcohol : bool;
  committed : bool;
  day_volume : option Volume;
  night_volume : option Volume;
  drugs : bool;
  neatness : Z;
  snore : bool;
  social_energy_level : Z;
  status : option Status;
}.

(** A typed profile, seen as a run-time value. *)
Definition of_profile `{PrismaEnums} (p : Profile.t) : t := {|
  id := Profile.id p;
  user := Profile.user p;
  school := Some (Profile.school p);
  assigned_sex := Profile.assigned_sex p;
  pronouns := Profile.pronouns p;
  alcohol := Profile.alcohol p;
  committed := Profile.committed p;
  day_volume := Profile.day_volume p;
  night_volume := Profile.night_volume p;
  drugs := Profile.drugs p;
  neatness := Profile.neatness p;
  snore := Profile.snore p;
  social_energy_level := Profile.social_energy_level p;
  status := Profile.status p;
|}.
End RawProfile.

(** The returned expression: [||] evaluates its right operand only when
    the left one is falsy, so the school is read only when neither the name
    nor the e-mail address matched. *)
Definition text_matches_raw `{PrismaEnums} (query : string) (profile : RawProfile.t)
    : Js.Result bool :=
  if Js.to_boolean (Js.chain_includes (User.name (RawProfile.user profile)) query)
  then Js.Ok true
  else if Js.to_boolean (Js.chain_includes (User.email (RawProfile.user profile)) query)
  then Js.Ok true
  else Js.bind (Js.toLowerCase_of (school_string <$> RawProfile.school profile))
         (λ lowered, Js.Ok (Js.includes lowered (Js.toLowerCase query))).

(** The callback, guard by guard, on a run-time profile. *)
Definition callback_raw `{PrismaEnums} (query : string) (filter : Filter.t)
    (profile : RawProfile.t) : Js.Result bool :=
  if flag_excludes (Filter.alcohol filter) (RawProfile.alcohol profile) then Js.Ok false
  else if enum_excludes (Filter.assigned_sex filter) (RawProfile.assigned_sex profile)
  then Js.Ok false
  else if flag_excludes (Filter.committed filter) (RawProfile.committed profile)
  then Js.Ok false
  else if enum_excludes (Filter.day_volume filter) (RawProfile.day_volume profile)
  then Js.Ok false
  else if flag_excludes (Filter.drugs filter) (RawProfile.drugs profile) then Js.Ok false
  else if score_excludes (Filter.minimum_neatness filter) (RawProfile.neatness profile)
  then Js.Ok false
  else if enum_excludes (Filter.night_volume filter) (RawProfile.night_volume profile)
  then Js.Ok false
  else if enum_excludes (Filter.school filter) (RawProfile.school profile) then Js.Ok false
  else if flag_excludes (Filter.snore filter) (RawProfile.snore profile) then Js.Ok false
  else if score_excludes (Filter.minimum_social_energy_level filter)
                         (RawProfile.social_energy_level profile)
  then Js.Ok false
  else if enum_excludes (Filter.status filter) (RawProfile.status profile) then Js.Ok false
  else text_matches_raw query profile.

(** [profiles.filter(callback)] on run-time profiles. *)
Definition filteredProfiles_raw `{PrismaEnums} (profiles : list RawProfile.t)
    (query : string) (filter : Filter.t) : Js.Result (list RawProfile.t) :=
  Js.filter_throwing (callback_raw query filter) profiles.

(** ** Concrete data for the examples

    Every enum value is taken to be the string it is at run time; the
    samples use non-empty names only. *)
#[global] Instance literal_enums : PrismaEnums := {|
  School := string;
  Sex := string;
  Status := string;
  Volume := string;
  school_string := λ s, s;
|}.

(** A profile with the given name, e-mail address, school and scores, all
    its checkbox properties set and no other enum value. *)
Definition sample_profile (name email : option string) (school : string)
    (neatness social_energy_level : Z) : @Profile.t literal_enums := {|
  Profile.id := "p1";
  Profile.user := {| User.name := name; User.email := email; User.image := None |};
  Profile.school := school;
  Profile.assigned_sex := None;
  Profile.pronouns := None;
  Profile.alcohol := true;
  Profile.committed := true;
  Profile.day_volume := None;
  Profile.night_volume := None;
  Profile.drugs := true;
  Profile.neatness := neatness;
  Profile.snore := true;
  Profile.social_energy_level := social_energy_level;
  Profile.status := None;
|}.

(** The filter objects [{minimum_neatness: m}], [{alcohol: b}] and
    [{school: s}]. *)
Definition only_minimum_neatness (m : Z) : @Filter.t literal_enums := {|
  Filter.alcohol := None; Filter.assigned_sex := None; Filter.committed := None;
  Filter.day_volume := None; Filter.drugs := None; Filter.minimum_neatness := Some m;
  Filter.minimum_social_energy_level := None; Filter.night_volume := None;
  Filter.school := None; Filter.snore := None; Filter.status := None;
|}.

Definition only_alcohol (b : bool) : @Filter.t literal_enums :=
  with_alcohol (Some b) Filter.empty.

Definition only_school (school : string) : @Filter.t literal_enums := {|
  Filter.alcohol := None; Filter.assigned_sex := None; Filter.committed := None;
  Filter.day_volume := None; Filter.drugs := None; Filter.minimum_neatness := None;
  Filter.minimum_social_energy_level := None; Filter.night_volume := None;
  Filter.school := Some school; Filter.snore := None; Filter.status := None;
|}.

(** A run-time profile whose name, e-mail address and school are [null]. *)
Definition anonymous_raw_profile : @RawProfile.t literal_enums := {|
  RawProfile.id := "p0";
  RawProfile.user := {| User.name := None; User.email := None; User.image := None |};
  RawProfile.school := None;
  RawProfile.assigned_sex := None;
  RawProfile.pronouns := None;
  RawProfile.alcohol := false;
  RawProfile.committed := false;
  RawProfile.day_volume := None;
  RawProfile.night_volume := None;
  RawProfile.drugs := false;
  RawProfile.neatness := 5;
  RawProfile.snore := false;
  RawProfile.social_energy_level := 5;
  RawProfile.status := None;
|}.

(** A listed member without display name. *)
Definition sample_member (userId : string) (role : Role) : Member.t := {|
  Member.id := "m-" +:+ userId;
  Member.role := role;
  Member.userId := userId;
  Member.name := None;
|}.

(** A membership of the user [u1] in the group [g1]: the group lists [u1]
    with the given role, then the other users with theirs. *)
Definition sample_membership (role : Role) (others : list (string * Role))
    : Membership.t := {|
  Membership.id := "m-u1";
  Membership.role := role;
  Membership.userId := "u1";
  Membership.groupId := "g1";
  Membership.group :=
    {| Group.members :=
         sample_member "u1" role :: map (λ o, sample_member o.1 o.2) others |};
|}.

(** ** The rest of the explore page *)

(** Object spread with one minimum replaced:
    [{...filter, minimum_neatness: v}] and
    [{...filter, minimum_social_energy_level: v}]. *)
Definition with_minimum_neatness `{PrismaEnums} (v : option Z) (filter : Filter.t)
    : Filter.t := {|
  Filter.alcohol := Filter.alcohol filter;
  Filter.assigned_sex := Filter.assigned_sex filter;
  Filter.committed := Filter.committed filter;
  Filter.day_volume := Filter.day_volume filter;
  Filter.drugs := Filter.drugs filter;
  Filter.minimum_neatness := v;
  Filter.minimum_social_energy_level := Filter.minimum_social_energy_level filter;
  Filter.night_volume := Filter.night_volume filter;
  Filter.school := Filter.school filter;
  Filter.snore := Filter.snore filter;
  Filter.status := Filter.status filter;
|}.

Definition with_minimum_social_energy_level `{PrismaEnums} (v : option Z)
    (filter : Filter.t) : Filter.t := {|
  Filter.alcohol := Filter.alcohol filter;
  Filter.assigned_sex := Filter.assigned_sex filter;
  Filter.committed := Filter.committed filter;
  Filter.day_volume := Filter.day_volume filter;
  Filter.drugs := Filter.drugs filter;
  Filter.minimum_neatness := Filter.minimum_neatness filter;
  Filter.minimum_social_energy_level := v;
  Filter.night_volume := Filter.night_volume filter;
  Filter.school := Filter.school filter;
  Filter.snore := Filter.snore filter;
  Filter.status := Filter.status filter;
|}.

(** [defaultValues] of the filter form in [Explore]: every checkbox ticked,
    no enum chosen, both minimums 0. *)
Definition defaultValues `{PrismaEnums} : Filter.t := {|
  Filter.alcohol := Some true;
  Filter.assigned_sex := None;
  Filter.committed := Some true;
  Filter.day_volume := None;
  Filter.drugs := Some true;
  Filter.minimum_neatness := Some 0;
  Filter.minimum_social_energy_level := Some 0;
  Filter.night_volume := None;
  Filter.school := None;
  Filter.snore := Some true;
  Filter.status := None;
|}.

(** No structured guard fires on a run-time profile. *)
Definition passes_structured_raw `{PrismaEnums} (filter : Filter.t)
    (profile : RawProfile.t) : bool :=
  negb (flag_excludes (Filter.alcohol filter) (RawProfile.alcohol profile)) &&
  negb (enum_excludes (Filter.assigned_sex filter) (RawProfile.assigned_sex profile)) &&
  negb (flag_excludes (Filter.committed filter) (RawProfile.committed profile)) &&
  negb (enum_excludes (Filter.day_volume filter) (RawProfile.day_volume profile)) &&
  negb (flag_excludes (Filter.drugs filter) (RawProfile.drugs profile)) &&
  negb (score_excludes (Filter.minimum_neatness filter) (RawProfile.neatness profile)) &&
  negb (enum_excludes (Filter.night_volume filter) (RawProfile.night_volume profile)) &&
  negb (enum_excludes (Filter.school filter) (RawProfile.school profile)) &&
  negb (flag_excludes (Filter.snore filter) (RawProfile.snore profile)) &&
  negb (score_excludes (Filter.minimum_social_energy_level filter)
                       (RawProfile.social_energy_level profile)) &&
  negb (enum_excludes (Filter.status filter) (RawProfile.status profile)).

(** What a run-time profile's callback answers when it does not raise. *)
Definition kept_raw `{PrismaEnums} (query : string) (filter : Filter.t)
    (profile : RawProfile.t) : bool :=
  match callback_raw query filter profile with
  | Js.Ok keep => keep
  | Js.TypeError => false
  end.

(** [status] of a tRPC query. *)
Inductive QueryStatus : Type :=
| loading
| error
| success.

(** What a component returns: one of the two placeholders, or its
    content. *)
Inductive Rendered (A : Type) : Type :=
| Loading
| Error
| Content (content : A).
Arguments Loading {A}.
Arguments Error {A}.
Arguments Content {A} content.

(** [Profiles]: the placeholders while the query has no data, then one
    [Profile] card per kept profile, keyed by [profile.id]. *)
Definition Profiles `{PrismaEnums} (status : QueryStatus) (profiles : list Profile.t)
    (query : string) (filter : Filter.t) : Rendered (list string) :=
  match status with
  | loading => Loading
  | error => Error
  | success => Content (map Profile.id (filteredProfiles profiles query filter))
  end.

(** A template literal's rendering of a value that may be [undefined]. *)
Definition template (v : option string) : string :=
  default "undefined" v.

(** The line feed of the template literal. *)
Definition line_feed : string := String (ascii_of_nat 10) EmptyString.

(** The text of the error toast of an invalid submit:
    [Object.entries(e).reduce((acc, cur) =>
       acc + `${cur[0]}: ${cur[1].message}\n`, "")],
    on the entries [[key, {message}]] in the order [Object.entries] gives
    them. *)
Definition error_text (entries : list (string * option string)) : string :=
  fold_left
    (λ acc cur, acc +:+ (cur.1 +:+ ": " +:+ template cur.2 +:+ line_feed))
    entries EmptyString.

(** The state of [Explore] (its three [useState] cells) together with the
    error toasts shown so far, and what its handlers do to it. *)
Module Explore.
Record State `{PrismaEnums} : Type := {
  query : string;
  filter : Filter.t;
  open : bool;
  toasts : list string;
}.

(** [useState("")], [useState({})], [useState(false)]. *)
Definition initial `{PrismaEnums} : State := {|
  query := EmptyString;
  filter := Filter.empty;
  open := false;
  toasts := [];
|}.

Inductive Event `{PrismaEnums} : Type :=
| change (value : string)
| click_filters
| close
| click_reset
| submit (data : Filter.t)
| submit_invalid (errors : list (string * option string)).

(** One handler call: [onChange] of the search box, [onClick] of the list
    button, [onClose] of the dialog, [onClick] of Reset ([methods.reset()]
    touches the form library's state only), and the two branches of
    [handleSubmit]. *)
Definition step `{PrismaEnums} (s : State) (e : Event) : State :=
  match e with
  | change value =>
      {| query := value; filter := filter s; open := open s; toasts := toasts s |}
  | click_filters =>
      {| query := query s; filter := filter s; open := true; toasts := toasts s |}
  | close =>
      {| query := query s; filter := filter s; open := false; toasts := toasts s |}
  | click_reset =>
      {| query := query s; filter := Filter.empty; open := false; toasts := toasts s |}
  | submit data =>
      {| query := query s; filter := data; open := false; toasts := toasts s |}
  | submit_invalid errors =>
      {| query := query s; filter := filter s; open := open s;
         toasts := toasts s ++ [error_text errors] |}
  end.

Definition run `{PrismaEnums} (s : State) (events : list Event) : State :=
  fold_left step events s.

(** [<Profiles query={query} filter={filter} />] once the profiles are
    loaded. *)
Definition shown `{PrismaEnums} (profiles : list Profile.t) (s : State)
    : list Profile.t :=
  filteredProfiles profiles (query s) (filter s).

(** The event applies a submitted filter. *)
Definition is_submit `{PrismaEnums} (e : Event) : bool :=
  match e with
  | submit _ => true
  | _ => false
  end.

(** The toast an event shows, if any. *)
Definition toast_of `{PrismaEnums} (e : Event) : option string :=
  match e with
  | submit_invalid errors => Some (error_text errors)
  | _ => None
  end.
End Explore.

(** ** The rest of the group-management page *)

Inductive Button : Type :=
| Delete
| Leave.

#[global] Instance Button_eq_dec : EqDecision Button.
Proof. solve_decision. Defined.

(** The buttons of [ActionCard], left to right, each with its [disabled]
    attribute: Delete is rendered for an ADMIN only, Leave always. *)
Definition ActionCard (membership : Membership.t) : list (Button * bool) :=
  (if delete_rendered membership
   then [(Delete, delete_disabled membership)]
   else [])
  ++ [(Leave, leave_disabled membership)].

(** The Remove buttons of [GroupCard], one per listed member in order: the
    member whose id the click passes to [removeMember.mutate], and the
    [disabled] attribute. *)
Definition GroupCard (membership : Membership.t) : list (Member.t * bool) :=
  map (λ member, (member, remove_disabled membership member))
      (Group.members (Membership.group membership)).

(** What the buttons that are not disabled act on. *)
Definition enabled {A : Type} (buttons : list (A * bool)) : list A :=
  map fst (List.filter (λ button, negb button.2) buttons).

(** The acting user is one of the listed members of the group. *)
Definition lists_self (membership : Membership.t) : Prop :=
  ∃ member, member ∈ Group.members (Membership.group membership)
            ∧ Member.userId member = Membership.userId membership.

(** A sample profile under another id. *)
Definition with_id (id : string) (profile : @Profile.t literal_enums)
    : @Profile.t literal_enums := {|
  Profile.id := id;
  Profile.user := Profile.user profile;
  Profile.school := Profile.school profile;
  Profile.assigned_sex := Profile.assigned_sex profile;
  Profile.pronouns := Profile.pronouns profile;
  Profile.alcohol := Profile.alcohol profile;
  Profile.committed := Profile.committed profile;
  Profile.day_volume := Profile.day_volume profile;
  Profile.night_volume := Profile.night_volume profile;
  Profile.drugs := Profile.drugs profile;
  Profile.neatness := Profile.neatness profile;
  Profile.snore := Profile.snore profile;
  Profile.social_energy_level := Profile.social_energy_level profile;
  Profile.status := Profile.status profile;
|}.

(** Three loaded profiles for the examples. *)
Definition sample_profiles : list (@Profile.t literal_enums) :=
  [ with_id "ann" (sample_profile (Some "Ann") None "UCLA" 5 5);
    with_id "bob" (sample_profile (Some "Bob") None "UCSB" 12 12);
    with_id "cat" (sample_profile (Some "Cat") None "USC" 20 3) ].

(** ** The inclusion rule in the spec's words

    Section 4.1 of the spec, criterion by criterion, as propositions over
    the filter and the profile: what the callback is to be compared with. *)

(** Criterion 1: no checkbox property is set to [false] in the filter
    while the profile holds [true]. *)
Definition flags_allow `{PrismaEnums} (filter : Filter.t) (profile : Profile.t) : Prop :=
  ¬ (Filter.alcohol filter = Some false ∧ Profile.alcohol profile = true)
  ∧ ¬ (Filter.committed filter = Some false ∧ Profile.committed profile = true)
  ∧ ¬ (Filter.drugs filter = Some false ∧ Profile.drugs profile = true)
  ∧ ¬ (Filter.snore filter = Some false ∧ Profile.snore profile = true).

(** Criterion 2: no enum property is present on both sides with two
    different values. *)
Definition enums_allow `{PrismaEnums} (filter : Filter.t) (profile : Profile.t) : Prop :=
  ¬ (∃ a b, Filter.assigned_sex filter = Some a
            ∧ Profile.assigned_sex profile = Some b ∧ a ≠ b)
  ∧ ¬ (∃ a b, Filter.day_volume filter = Some a
              ∧ Profile.day_volume profile = Some b ∧ a ≠ b)
  ∧ ¬ (∃ a b, Filter.night_volume filter = Some a
              ∧ Profile.night_volume profile = Some b ∧ a ≠ b)
  ∧ ¬ (∃ a, Filter.school filter = Some a ∧ a ≠ Profile.school profile)
  ∧ ¬ (∃ a b, Filter.status filter = Some a
              ∧ Profile.status profile = Some b ∧ a ≠ b).

(** Criterion 3: both scores reach their threshold, the minimum (or -10
    when unset) plus 10. *)
Definition scores_allow `{PrismaEnums} (filter : Filter.t) (profile : Profile.t) : Prop :=
  default (-10) (Filter.minimum_neatness filter) + 10 ≤ Profile.neatness profile
  ∧ default (-10) (Filter.minimum_social_energy_level filter) + 10
    ≤ Profile.social_energy_level profile.

(** Criterion 4: the lower-cased query occurs in the lower-cased name,
    e-mail address or school, [null] read as the empty string (an empty
    query occurs in every string). *)
Definition text_allows `{PrismaEnums} (query : string) (profile : Profile.t) : Prop :=
  substring_of (Js.toLowerCase query)
    (Js.toLowerCase (default EmptyString (User.name (Profile.user profile))))
  ∨ substring_of (Js.toLowerCase query)
      (Js.toLowerCase (default EmptyString (User.email (Profile.user profile))))
  ∨ substring_of (Js.toLowerCase query)
      (Js.toLowerCase (school_string (Profile.school profile))).

(** Object spread with one enum property replaced:
    [{...filter, assigned_sex: v}] and so on. *)
Definition with_assigned_sex `{PrismaEnums} (v : option Sex) (filter : Filter.t)
    : Filter.t := {|
  Filter.alcohol := Filter.alcohol filter;
  Filter.assigned_sex := v;
  Filter.committed := Filter.committed filter;
  Filter.day_volume := Filter.day_volume filter;
  Filter.drugs := Filter.drugs filter;
  Filter.minimum_neatness := Filter.minimum_neatness filter;
  Filter.minimum_social_energy_level := Filter.minimum_social_energy_level filter;
  Filter.night_volume := Filter.night_volume filter;
  Filter.school := Filter.school filter;
  Filter.snore := Filter.snore filter;
  Filter.status := Filter.status filter;
|}.

Definition with_day_volume `{PrismaEnums} (v : option Volume) (filter : Filter.t)
    : Filter.t := {|
  Filter.alcohol := Filter.alcohol filter;
  Filter.assigned_sex := Filter.assigned_sex filter;
  Filter.committed := Filter.committed filter;
  Filter.day_volume := v;
  Filter.drugs := Filter.drugs filter;
  Filter.minimum_neatness := Filter.minimum_neatness filter;
  Filter.minimum_social_energy_level := Filter.minimum_social_energy_level filter;
  Filter.night_volume := Filter.night_volume filter;
  Filter.school := Filter.school filter;
  Filter.snore := Filter.snore filter;
  Filter.status := Filter.status filter;
|}.

Definition with_night_volume `{PrismaEnums} (v : option Volume) (filter : Filter.t)
    : Filter.t := {|
  Filter.alcohol := Filter.alcohol filter;
  Filter.assigned_sex := Filter.assigned_sex filter;
  Filter.committed := Filter.committed filter;
  Filter.day_volume := Filter.day_volume filter;
  Filter.drugs := Filter.drugs filter;
  Filter.minimum_neatness := Filter.minimum_neatness filter;
  Filter.minimum_social_energy_level := Filter.minimum_social_energy_level filter;
  Filter.night_volume := v;
  Filter.school := Filter.school filter;
  Filter.snore := Filter.snore filter;
  Filter.status := Filter.status filter;
|}.

Definition with_school `{PrismaEnums} (v : option School) (filter : Filter.t)
    : Filter.t := {|
  Filter.alcohol := Filter.alcohol filter;
  Filter.assigned_sex := Filter.assigned_sex filter;
  Filter.committed := Filter.committed filter;
  Filter.day_volume := Filter.day_volume filter;
  Filter.drugs := Filter.drugs filter;
  Filter.minimum_neatness := Filter.minimum_neatness filter;
  Filter.minimum_social_energy_level := Filter.minimum_social_energy_level filter;
  Filter.night_volume := Filter.night_volume filter;
  Filter.school := v;
  Filter.snore := Filter.snore filter;
  Filter.status := Filter.status filter;
|}.

Definition with_status `{PrismaEnums} (v : option Status) (filter : Filter.t)
    : Filter.t := {|
  Filter.alcohol := Filter.alcohol filter;
  Filter.assigned_sex := Filter.assigned_sex filter;
  Filter.committed := Filter.committed filter;
  Filter.day_volume := Filter.day_volume filter;
  Filter.drugs := Filter.drugs filter;
  Filter.minimum_neatness := Filter.minimum_neatness filter;
  Filter.minimum_social_energy_level := Filter.minimum_social_energy_level filter;
  Filter.night_volume := Filter.night_volume filter;
  Filter.school := Filter.school filter;
  Filter.snore := Filter.snore filter;
  Filter.status := v;
|}.

(** * Properties *)

(** ** The built-ins *)

Lemma filter_loop {A : Type} (cb : A → bool) (xs kept : list A) :
  fold_left (λ kept x, if cb x then kept ++ [x] else kept) xs kept
  = kept ++ List.filter cb xs.
Proof.
  revert kept. induction xs as [|x xs IH]; intros kept; simpl.
  - by rewrite app_nil_r.
  - rewrite IH. destruct (cb x); [|done].
    by rewrite <- app_assoc.
Qed.

Lemma filter_is_list_filter {A : Type} (cb : A → bool) (xs : list A) :
  Js.filter cb xs = List.filter cb xs.
Proof. unfold Js.filter. by rewrite filter_loop. Qed.

Lemma filter_throwing_loop {A : Type} (cb_raw : A → Js.Result bool) (cb : A → bool)
    (xs kept : list A) :
  Forall (λ x, cb_raw x = Js.Ok (cb x)) xs →
  fold_left
    (λ acc x,
       Js.bind acc (λ kept,
       Js.bind (cb_raw x) (λ keep,
       Js.Ok (if keep then kept ++ [x] else kept))))
    xs (Js.Ok kept)
  = Js.Ok (kept ++ List.filter cb xs).
Proof.
  intros Hxs. revert kept.
  induction Hxs as [|x xs Hx _ IH]; intros kept; simpl.
  - by rewrite app_nil_r.
  - rewrite Hx. simpl. rewrite IH. destruct (cb x); [|done].
    by rewrite <- app_assoc.
Qed.

Lemma filter_throwing_stuck {A : Type} (cb_raw : A → Js.Result bool) (xs : list A) :
  fold_left
    (λ acc x,
       Js.bind acc (λ kept,
       Js.bind (cb_raw x) (λ keep,
       Js.Ok (if keep then kept ++ [x] else kept))))
    xs Js.TypeError
  = Js.TypeError.
Proof. induction xs as [|x xs IH]; simpl; [done | apply IH]. Qed.

Lemma startsWith_prefix (s t : string) :
  Js.startsWith s t = true ↔ ∃ after, s = t +:+ after.
Proof.
  revert s. induction t as [|b t IH]; intros s; simpl.
  - split; [intros _; by exists s | done].
  - destruct s as [|a s]; simpl.
    + split; [done | intros [after Heq]; discriminate].
    + rewrite andb_true_iff, bool_decide_eq_true, IH. split.
      * intros [-> [after ->]]. by exists after.
      * intros [after Heq]. injection Heq as -> ->. eauto.
Qed.

Lemma includes_substring (s t : string) :
  Js.includes s t = true ↔ substring_of t s.
Proof.
  unfold substring_of. induction s as [|a s IH]; simpl.
  - rewrite orb_false_r, startsWith_prefix. split.
    + intros [after Heq]. by exists EmptyString, after.
    + intros [before [after Heq]].
      destruct before; [by exists after | discriminate].
  - rewrite orb_true_iff, startsWith_prefix, IH. split.
    + intros [[after Heq] | [before [after Heq]]].
      * by exists EmptyString, after.
      * exists (String a before), after. simpl. by rewrite Heq.
    + intros [[|c before] [after Heq]]; simpl in Heq.
      * left. by exists after.
      * right. injection Heq as -> ->. by exists before, after.
Qed.

Lemma includes_empty (s : string) : Js.includes s EmptyString = true.
Proof. destruct s; reflexivity. Qed.


(** ** The guards of the callback *)

(** Walks down a chain of early returns [if g then returned else ...]: one
    case per guard that fires, closed by [finish], and the case where none
    does is left. *)
Ltac walk_guards returned finish :=
  repeat match goal with
         | |- context [if ?g then returned else _] =>
             destruct g; simpl; [finish|]
         end.

Lemma flag_excludes_true (filter_x : option bool) (profile_x : bool) :
  flag_excludes filter_x profile_x = true ↔ filter_x = Some false ∧ profile_x = true.
Proof.
  unfold flag_excludes.
  destruct filter_x as [[]|], profile_x; simpl; split; (done || intros [? ?]; done).
Qed.

Lemma enum_excludes_true {A : Type} `{EqDecision A} (filter_x profile_x : option A) :
  enum_excludes filter_x profile_x = true
  ↔ ∃ a b, filter_x = Some a ∧ profile_x = Some b ∧ a ≠ b.
Proof.
  unfold enum_excludes, Js.strict_ne.
  destruct filter_x as [a|], profile_x as [b|]; simpl.
  - rewrite negb_true_iff, bool_decide_eq_false. split.
    + intros Hne. exists a, b. repeat split. congruence.
    + intros (a' & b' & [= <-] & [= <-] & Hne). congruence.
  - split; [done | intros (? & ? & _ & ? & _); done].
  - split; [done | intros (? & ? & ? & _); done].
  - split; [done | intros (? & ? & ? & _); done].
Qed.

Lemma enum_excludes_null_filter {A : Type} `{EqDecision A} (profile_x : option A) :
  enum_excludes None profile_x = false.
Proof. reflexivity. Qed.

Lemma enum_excludes_null_profile {A : Type} `{EqDecision A} (filter_x : option A) :
  enum_excludes filter_x None = false.
Proof. by destruct filter_x. Qed.

Lemma threshold_default (filter_minimum_x : option Z) :
  threshold filter_minimum_x = default (-10) filter_minimum_x + 10.
Proof. by destruct filter_minimum_x. Qed.

Lemma score_excludes_true (filter_minimum_x : option Z) (profile_x : Z) :
  score_excludes filter_minimum_x profile_x = true
  ↔ profile_x < default (-10) filter_minimum_x + 10.
Proof.
  unfold score_excludes. rewrite threshold_default, Z.gtb_ltb, Z.ltb_lt. done.
Qed.

Lemma score_excludes_false (filter_minimum_x : option Z) (profile_x : Z) :
  score_excludes filter_minimum_x profile_x = false
  ↔ default (-10) filter_minimum_x + 10 ≤ profile_x.
Proof.
  unfold score_excludes. rewrite threshold_default, Z.gtb_ltb, Z.ltb_ge. done.
Qed.

(** The chain of early returns is the conjunction of the negated guards and
    of the text test. *)
Lemma callback_guards `{PrismaEnums} (query : string) (filter : Filter.t)
    (profile : Profile.t) :
  callback query filter profile
  = passes_structured filter profile && text_matches query profile.
Proof.
  unfold callback, passes_structured.
  walk_guards false ltac:(reflexivity). reflexivity.
Qed.

Lemma filteredProfiles_filter `{PrismaEnums} (profiles : list Profile.t)
    (query : string) (filter : Filter.t) :
  filteredProfiles profiles query filter = List.filter (callback query filter) profiles.
Proof. apply filter_is_list_filter. Qed.

Lemma filteredProfiles_single `{PrismaEnums} (profile : Profile.t)
    (query : string) (filter : Filter.t) :
  filteredProfiles [profile] query filter
  = if callback query filter profile then [profile] else [].
Proof. rewrite filteredProfiles_filter. reflexivity. Qed.

Lemma filteredProfiles_elem `{PrismaEnums} (profiles : list Profile.t)
    (query : string) (filter : Filter.t) (profile : Profile.t) :
  profile ∈ filteredProfiles profiles query filter
  ↔ profile ∈ profiles ∧ callback query filter profile = true.
Proof.
  rewrite filteredProfiles_filter, !list_elem_of_In. apply filter_In.
Qed.

Lemma callback_rejected `{PrismaEnums} (query : string) (filter : Filter.t)
    (profile : Profile.t) :
  passes_structured filter profile = false →
  callback query filter profile = false.
Proof. intros Hrej. by rewrite callback_guards, Hrej. Qed.

(** ** Occurrence of the query *)

Lemma chain_includes_true (o : option string) (query : string) :
  Js.to_boolean (Js.chain_includes o query) = true
  → substring_of (Js.toLowerCase query) (Js.toLowerCase (default EmptyString o)).
Proof.
  destruct o as [s|]; simpl; [|done]. apply includes_substring.
Qed.

Lemma substring_chain_includes (o : option string) (query other : string) :
  substring_of (Js.toLowerCase query) (Js.toLowerCase (default EmptyString o))
  → Js.to_boolean (Js.chain_includes o query) = true
    ∨ Js.includes other (Js.toLowerCase query) = true.
Proof.
  destruct o as [s|]; simpl.
  - intros Hsub. left. by apply includes_substring.
  - intros Hsub. right. apply includes_substring in Hsub.
    destruct (Js.toLowerCase query); [apply includes_empty | discriminate].
Qed.

Lemma text_matches_true `{PrismaEnums} (query : string) (profile : Profile.t) :
  text_matches query profile = true
  ↔ substring_of (Js.toLowerCase query)
      (Js.toLowerCase (default EmptyString (User.name (Profile.user profile))))
    ∨ substring_of (Js.toLowerCase query)
        (Js.toLowerCase (default EmptyString (User.email (Profile.user profile))))
    ∨ substring_of (Js.toLowerCase query)
        (Js.toLowerCase (school_string (Profile.school profile))).
Proof.
  unfold text_matches. rewrite !orb_true_iff, includes_substring. split.
  - intros [[Hname | Hemail] | Hschool].
    + left. by apply chain_includes_true.
    + right; left. by apply chain_includes_true.
    + by right; right.
  - intros [Hname | [Hemail | Hschool]].
    + eapply substring_chain_includes in Hname as [Hname | Hschool].
      * left; left. exact Hname.
      * right. apply includes_substring. exact Hschool.
    + eapply substring_chain_includes in Hemail as [Hemail | Hschool].
      * left; right. exact Hemail.
      * right. apply includes_substring. exact Hschool.
    + by right.
Qed.

Lemma text_matches_empty_query `{PrismaEnums} (profile : Profile.t) :
  text_matches EmptyString profile = true.
Proof.
  unfold text_matches. simpl. by rewrite includes_empty, orb_true_r.
Qed.

Lemma bool_eq_iff (a b : bool) : (a = true ↔ b = true) → a = b.
Proof. destruct a, b; intros [H1 H2]; try done; [by rewrite H1 | by rewrite H2]. Qed.

(** ** The callback against the spec's rule *)

(** The callback answers [true] exactly on the profiles the four criteria
    allow. *)
Lemma callback_spec `{PrismaEnums} (query : string) (filter : Filter.t)
    (profile : Profile.t) :
  callback query filter profile = true
  ↔ flags_allow filter profile ∧ enums_allow filter profile
    ∧ scores_allow filter profile ∧ text_allows query profile.
Proof.
  rewrite callback_guards. unfold passes_structured.
  rewrite !andb_true_iff, !negb_true_iff, text_matches_true.
  rewrite <- !not_true_iff_false, !flag_excludes_true, !enum_excludes_true,
    !not_true_iff_false, !score_excludes_false.
  unfold flags_allow, enums_allow, scores_allow, text_allows.
  assert (Hschool :
    (∃ a b, Filter.school filter = Some a ∧ Some (Profile.school profile) = Some b
            ∧ a ≠ b)
    ↔ ∃ a, Filter.school filter = Some a ∧ a ≠ Profile.school profile).
  { split.
    - intros (a & b & Hf & [= <-] & Hne). eauto.
    - intros (a & Hf & Hne). eauto. }
  rewrite Hschool. tauto.
Qed.

Lemma filteredProfiles_single_kept `{PrismaEnums} (profile : Profile.t)
    (query : string) (filter : Filter.t) :
  filteredProfiles [profile] query filter = [profile]
  ↔ callback query filter profile = true.
Proof.
  rewrite filteredProfiles_single.
  destruct (callback query filter profile); split; done.
Qed.

Lemma text_allows_empty_query `{PrismaEnums} (profile : Profile.t) :
  text_allows EmptyString profile.
Proof.
  right; right. simpl. by exists EmptyString, (Js.toLowerCase (school_string (Profile.school profile))).
Qed.

(** Settles, for the empty query and a filter that sets one property
    only, that the one-profile list is returned exactly under the stated
    condition: the criteria of the properties left unset hold outright. *)
Ltac single_property_filter :=
  rewrite filteredProfiles_single_kept, callback_spec;
  unfold flags_allow, enums_allow, scores_allow; simpl;
  split;
  [ intros (? & ? & [? ?] & _);
    repeat split; first [tauto | lia]
  | intros ?; repeat split;
    first [ apply text_allows_empty_query
          | lia
          | tauto
          | by intros [[=] _]
          | by intros (? & ? & [=] & _)
          | by intros (? & [=] & _) ] ].

(** ** Scores *)

(** C1.  The two score guards compare the profile's score with
    [(filter.minimum_x ?? -10) + 10]: the guard fires exactly when the score
    is strictly below that threshold, and a profile on which it fires is
    returned for no query and from no list.  An unset minimum gives the
    threshold 0.  The callback, and with it the filter on a one-profile
    list, keeps a profile exactly when both scores reach their thresholds
    and the other criteria of the spec allow it; with nothing else set and
    the empty query, exactly when both scores reach their thresholds.  A
    profile of neatness 5 (and a social energy level that is not negative)
    is returned for the minimum -5 and dropped for the minimum -4. *)
Theorem score_thresholds `{PrismaEnums} (query : string) (filter : Filter.t)
    (profile : Profile.t) :
  let neatness_threshold := default (-10) (Filter.minimum_neatness filter) + 10 in
  let social_threshold :=
    default (-10) (Filter.minimum_social_energy_level filter) + 10 in
  threshold (Filter.minimum_neatness filter) = neatness_threshold
  ∧ threshold (Filter.minimum_social_energy_level filter) = social_threshold
  ∧ (score_excludes (Filter.minimum_neatness filter) (Profile.neatness profile) = true
     ↔ Profile.neatness profile < neatness_threshold)
  ∧ (score_excludes (Filter.minimum_social_energy_level filter)
       (Profile.social_energy_level profile) = true
     ↔ Profile.social_energy_level profile < social_threshold)
  ∧ (Profile.neatness profile < neatness_threshold
     ∨ Profile.social_energy_level profile < social_threshold →
     callback query filter profile = false
     ∧ ∀ profiles, profile ∉ filteredProfiles profiles query filter)
  ∧ (callback query filter profile = true →
     neatness_threshold ≤ Profile.neatness profile
     ∧ social_threshold ≤ Profile.social_energy_level profile)
  ∧ (Filter.minimum_neatness filter = None → neatness_threshold = 0)
  ∧ (Filter.minimum_social_energy_level filter = None → social_threshold = 0)
  ∧ (Profile.neatness profile = 5 → Filter.minimum_neatness filter = Some (-5) →
     score_excludes (Filter.minimum_neatness filter) (Profile.neatness profile) = false)
  ∧ (Profile.neatness profile = 5 → Filter.minimum_neatness filter = Some (-4) →
     score_excludes (Filter.minimum_neatness filter) (Profile.neatness profile) = true
     ∧ filteredProfiles [profile] query filter = [])
  ∧ (callback query filter profile = true
     ↔ neatness_threshold ≤ Profile.neatness profile
       ∧ social_threshold ≤ Profile.social_energy_level profile
       ∧ flags_allow filter profile ∧ enums_allow filter profile
       ∧ text_allows query profile)
  ∧ (filteredProfiles [profile] query filter = [profile]
     ↔ neatness_threshold ≤ Profile.neatness profile
       ∧ social_threshold ≤ Profile.social_energy_level profile
       ∧ flags_allow filter profile ∧ enums_allow filter profile
       ∧ text_allows query profile)
  ∧ (∀ minimum : option Z,
       filteredProfiles [profile] EmptyString
         (with_minimum_neatness minimum Filter.empty) = [profile]
       ↔ default (-10) minimum + 10 ≤ Profile.neatness profile
         ∧ 0 ≤ Profile.social_energy_level profile)
  ∧ (∀ minimum : option Z,
       filteredProfiles [profile] EmptyString
         (with_minimum_social_energy_level minimum Filter.empty) = [profile]
       ↔ 0 ≤ Profile.neatness profile
         ∧ default (-10) minimum + 10 ≤ Profile.social_energy_level profile)
  ∧ (Profile.neatness profile = 5 → 0 ≤ Profile.social_energy_level profile →
     filteredProfiles [profile] EmptyString
       (with_minimum_neatness (Some (-5)) Filter.empty) = [profile]
     ∧ filteredProfiles [profile] EmptyString
         (with_minimum_neatness (Some (-4)) Filter.empty) = []).
Proof.
  intros neatness_threshold social_threshold.
  assert (Hdrop :
    Profile.neatness profile < neatness_threshold
    ∨ Profile.social_energy_level profile < social_threshold →
    callback query filter profile = false).
  { intros Hlow. apply callback_rejected. unfold passes_structured.
    destruct Hlow as [Hlow | Hlow]; apply score_excludes_true in Hlow;
      rewrite Hlow; simpl; rewrite ?andb_false_r; reflexivity. }
  assert (Hkeeps : callback query filter profile = true
     ↔ neatness_threshold ≤ Profile.neatness profile
       ∧ social_threshold ≤ Profile.social_energy_level profile
       ∧ flags_allow filter profile ∧ enums_allow filter profile
       ∧ text_allows query profile).
  { rewrite callback_spec. unfold scores_allow.
    subst neatness_threshold social_threshold. tauto. }
  assert (Hneatness : ∀ minimum : option Z,
       filteredProfiles [profile] EmptyString
         (with_minimum_neatness minimum Filter.empty) = [profile]
       ↔ default (-10) minimum + 10 ≤ Profile.neatness profile
         ∧ 0 ≤ Profile.social_energy_level profile).
  { intros minimum. single_property_filter. }
  split; [apply threshold_default|].
  split; [apply threshold_default|].
  split; [apply score_excludes_true|].
  split; [apply score_excludes_true|].
  split.
  { intros Hlow. split; [by apply Hdrop|].
    intros profiles [_ Hkept]%filteredProfiles_elem.
    rewrite Hdrop in Hkept; done. }
  split.
  { intros Hkept.
    destruct (Z.lt_ge_cases (Profile.neatness profile) neatness_threshold) as [Hn|Hn];
      [rewrite Hdrop in Hkept; [done | by left]|].
    destruct (Z.lt_ge_cases (Profile.social_energy_level profile) social_threshold)
      as [Hs|Hs]; [rewrite Hdrop in Hkept; [done | by right]|].
    done. }
  split; [intros Hunset; subst neatness_threshold; by rewrite Hunset|].
  split; [intros Hunset; subst social_threshold; by rewrite Hunset|].
  split.
  { intros Hfive Hmin. apply score_excludes_false. rewrite Hfive, Hmin. simpl. lia. }
  split.
  { intros Hfive Hmin.
    assert (Hlow : Profile.neatness profile < neatness_threshold).
    { subst neatness_threshold. rewrite Hfive, Hmin. simpl. lia. }
    split; [by apply score_excludes_true|].
    rewrite filteredProfiles_single, Hdrop; [done | by left]. }
  split; [exact Hkeeps|].
  split; [by rewrite filteredProfiles_single_kept|].
  split; [exact Hneatness|].
  split; [intros minimum; single_property_filter|].
  intros Hfive Hsocial. split.
  - apply Hneatness. simpl. lia.
  - destruct (filteredProfiles [profile] EmptyString
                (with_minimum_neatness (Some (-4)) Filter.empty)) as [|kept rest] eqn:Hres;
      [done|].
    exfalso.
    assert (Hnot : ¬ (default (-10) (Some (-4)) + 10 ≤ Profile.neatness profile
                      ∧ 0 ≤ Profile.social_energy_level profile)).
    { simpl. lia. }
    apply Hnot, Hneatness. rewrite filteredProfiles_single in Hres |- *.
    by destruct (callback EmptyString
                   (with_minimum_neatness (Some (-4)) Filter.empty) profile).
Qed.

Lemma score_thresholds_witness :
  let P := sample_profile (Some "Alex") (Some "a@x.com") "UCLA" 5 0 in
  Profile.neatness P = 5 ∧ 0 ≤ Profile.social_energy_level P
  ∧ filteredProfiles [P] EmptyString (only_minimum_neatness (-5)) = [P]
  ∧ filteredProfiles [P] EmptyString (only_minimum_neatness (-4)) = [].
Proof.
  intros P.
  destruct (score_thresholds EmptyString Filter.empty P)
    as (_ & _ & _ & _ & _ & _ & _ & _ & _ & _ & _ & _ & _ & _ & Hsample).
  split; [reflexivity|]. split; [simpl; lia|].
  apply Hsample; [reflexivity | simpl; lia].
Defined.

(** The spec's sample: neatness 5 against [{minimum_neatness: -5}] and
    [{minimum_neatness: -4}], through the whole filter. *)
Example neatness_five_sample :
  let P := sample_profile (Some "Alex") (Some "a@x.com") "UCLA" 5 0 in
  filteredProfiles [P] "" (only_minimum_neatness (-5)) = [P]
  ∧ filteredProfiles [P] "" (only_minimum_neatness (-4)) = [].
Proof. split; vm_compute; reflexivity. Qed.

(** ** Checkbox properties *)

(** C2.  For each of alcohol, committed, drugs and snore the guard fires
    exactly when the filter holds [false] for the property and the profile
    holds [true]; a profile on which one of them fires is dropped; and when
    the guard of a property does not fire (the filter holds [true] or
    nothing, or the profile holds [false]) the callback answers as it does
    with that property removed from the filter.  The callback, and with it
    the filter on a one-profile list, keeps a profile exactly when none of
    the four properties is [false] in the filter and [true] in the profile
    and the other criteria of the spec allow it; with the empty query and
    nothing else set, a profile with non-negative scores is returned
    unless the one property set is [false] and the profile holds [true]. *)
Theorem flag_exclusion `{PrismaEnums} (query : string) (filter : Filter.t)
    (profile : Profile.t) :
  (flag_excludes (Filter.alcohol filter) (Profile.alcohol profile) = true
   ↔ Filter.alcohol filter = Some false ∧ Profile.alcohol profile = true)
  ∧ (flag_excludes (Filter.committed filter) (Profile.committed profile) = true
     ↔ Filter.committed filter = Some false ∧ Profile.committed profile = true)
  ∧ (flag_excludes (Filter.drugs filter) (Profile.drugs profile) = true
     ↔ Filter.drugs filter = Some false ∧ Profile.drugs profile = true)
  ∧ (flag_excludes (Filter.snore filter) (Profile.snore profile) = true
     ↔ Filter.snore filter = Some false ∧ Profile.snore profile = true)
  ∧ (flag_excludes (Filter.alcohol filter) (Profile.alcohol profile) = true
     ∨ flag_excludes (Filter.committed filter) (Profile.committed profile) = true
     ∨ flag_excludes (Filter.drugs filter) (Profile.drugs profile) = true
     ∨ flag_excludes (Filter.snore filter) (Profile.snore profile) = true →
     callback query filter profile = false
     ∧ filteredProfiles [profile] query filter = [])
  ∧ (flag_excludes (Filter.alcohol filter) (Profile.alcohol profile) = false →
     callback query filter profile = callback query (with_alcohol None filter) profile)
  ∧ (flag_excludes (Filter.committed filter) (Profile.committed profile) = false →
     callback query filter profile = callback query (with_committed None filter) profile)
  ∧ (flag_excludes (Filter.drugs filter) (Profile.drugs profile) = false →
     callback query filter profile = callback query (with_drugs None filter) profile)
  ∧ (flag_excludes (Filter.snore filter) (Profile.snore profile) = false →
     callback query filter profile = callback query (with_snore None filter) profile)
  ∧ (callback query filter profile = true
     ↔ ¬ (Filter.alcohol filter = Some false ∧ Profile.alcohol profile = true)
       ∧ ¬ (Filter.committed filter = Some false ∧ Profile.committed profile = true)
       ∧ ¬ (Filter.drugs filter = Some false ∧ Profile.drugs profile = true)
       ∧ ¬ (Filter.snore filter = Some false ∧ Profile.snore profile = true)
       ∧ enums_allow filter profile ∧ scores_allow filter profile
       ∧ text_allows query profile)
  ∧ (filteredProfiles [profile] query filter = [profile]
     ↔ ¬ (Filter.alcohol filter = Some false ∧ Profile.alcohol profile = true)
       ∧ ¬ (Filter.committed filter = Some false ∧ Profile.committed profile = true)
       ∧ ¬ (Filter.drugs filter = Some false ∧ Profile.drugs profile = true)
       ∧ ¬ (Filter.snore filter = Some false ∧ Profile.snore profile = true)
       ∧ enums_allow filter profile ∧ scores_allow filter profile
       ∧ text_allows query profile)
  ∧ (∀ v : option bool,
       filteredProfiles [profile] EmptyString (with_alcohol v Filter.empty) = [profile]
       ↔ ¬ (v = Some false ∧ Profile.alcohol profile = true)
         ∧ 0 ≤ Profile.neatness profile
         ∧ 0 ≤ Profile.social_energy_level profile)
  ∧ (∀ v : option bool,
       filteredProfiles [profile] EmptyString (with_committed v Filter.empty) = [profile]
       ↔ ¬ (v = Some false ∧ Profile.committed profile = true)
         ∧ 0 ≤ Profile.neatness profile
         ∧ 0 ≤ Profile.social_energy_level profile)
  ∧ (∀ v : option bool,
       filteredProfiles [profile] EmptyString (with_drugs v Filter.empty) = [profile]
       ↔ ¬ (v = Some false ∧ Profile.drugs profile = true)
         ∧ 0 ≤ Profile.neatness profile
         ∧ 0 ≤ Profile.social_energy_level profile)
  ∧ (∀ v : option bool,
       filteredProfiles [profile] EmptyString (with_snore v Filter.empty) = [profile]
       ↔ ¬ (v = Some false ∧ Profile.snore profile = true)
         ∧ 0 ≤ Profile.neatness profile
         ∧ 0 ≤ Profile.social_energy_level profile).
Proof.
  assert (Hkeeps : callback query filter profile = true
     ↔ ¬ (Filter.alcohol filter = Some false ∧ Profile.alcohol profile = true)
       ∧ ¬ (Filter.committed filter = Some false ∧ Profile.committed profile = true)
       ∧ ¬ (Filter.drugs filter = Some false ∧ Profile.drugs profile = true)
       ∧ ¬ (Filter.snore filter = Some false ∧ Profile.snore profile = true)
       ∧ enums_allow filter profile ∧ scores_allow filter profile
       ∧ text_allows query profile).
  { rewrite callback_spec. unfold flags_allow. tauto. }
  repeat (split; [apply flag_excludes_true|]).
  split.
  { intros Hfires.
    assert (Hdrop : callback query filter profile = false).
    { apply callback_rejected. unfold passes_structured.
      destruct Hfires as [Hf | [Hf | [Hf | Hf]]]; rewrite Hf; simpl;
        rewrite ?andb_false_r; reflexivity. }
    split; [done|]. by rewrite filteredProfiles_single, Hdrop. }
  assert (Hquiet_alcohol :
    flag_excludes (Filter.alcohol filter) (Profile.alcohol profile) = false →
    callback query filter profile = callback query (with_alcohol None filter) profile).
  { intros Hquiet. rewrite !callback_guards. unfold passes_structured. simpl.
    by rewrite Hquiet. }
  assert (Hquiet_committed :
    flag_excludes (Filter.committed filter) (Profile.committed profile) = false →
    callback query filter profile = callback query (with_committed None filter) profile).
  { intros Hquiet. rewrite !callback_guards. unfold passes_structured. simpl.
    by rewrite Hquiet. }
  assert (Hquiet_drugs :
    flag_excludes (Filter.drugs filter) (Profile.drugs profile) = false →
    callback query filter profile = callback query (with_drugs None filter) profile).
  { intros Hquiet. rewrite !callback_guards. unfold passes_structured. simpl.
    by rewrite Hquiet. }
  assert (Hquiet_snore :
    flag_excludes (Filter.snore filter) (Profile.snore profile) = false →
    callback query filter profile = callback query (with_snore None filter) profile).
  { intros Hquiet. rewrite !callback_guards. unfold passes_structured. simpl.
    by rewrite Hquiet. }
  split; [exact Hquiet_alcohol|]. split; [exact Hquiet_committed|].
  split; [exact Hquiet_drugs|]. split; [exact Hquiet_snore|].
  split; [exact Hkeeps|].
  split; [by rewrite filteredProfiles_single_kept|].
  split; [intros v; single_property_filter|].
  split; [intros v; single_property_filter|].
  split; [intros v; single_property_filter|].
  intros v; single_property_filter.
Qed.

Lemma flag_exclusion_witness :
  let P := sample_profile (Some "Alex") (Some "a@x.com") "UCLA" 5 5 in
  flag_excludes (Filter.alcohol (only_alcohol false)) (Profile.alcohol P) = true
  ∧ filteredProfiles [P] EmptyString (only_alcohol false) = []
  ∧ filteredProfiles [P] EmptyString (only_alcohol true) = [P].
Proof.
  intros P.
  destruct (flag_exclusion EmptyString (only_alcohol false) P)
    as (_ & _ & _ & _ & Hdropped & _ & _ & _ & _ & _ & _ & Halcohol & _).
  split; [reflexivity|]. split.
  - apply Hdropped. left. reflexivity.
  - apply (Halcohol (Some true)). split; [intros [[=] _]|]. simpl. lia.
Defined.

(** The spec's sample: a drinker against [{alcohol: false}] and
    [{alcohol: true}]. *)
Example alcohol_sample :
  let P := sample_profile (Some "Alex") (Some "a@x.com") "UCLA" 5 5 in
  filteredProfiles [P] "" (only_alcohol false) = []
  ∧ filteredProfiles [P] "" (only_alcohol true) = [P].
Proof. split; vm_compute; reflexivity. Qed.

(** ** The text test *)

(** C3.  For a profile that no structured guard drops, the callback keeps
    the profile exactly when the lower-cased query occurs in the lower-cased
    user name, or e-mail address, or school ([null] name and address read as
    the empty string); this holds for every query, the non-empty ones in
    particular.  The empty query keeps the profile.  Replacing a [null]
    name or address by the empty string changes nothing. *)
Theorem text_query `{PrismaEnums} (query : string) (filter : Filter.t)
    (profile : Profile.t) :
  passes_structured filter profile = true →
  let q := Js.toLowerCase query in
  let name := Js.toLowerCase (default EmptyString (User.name (Profile.user profile))) in
  let email := Js.toLowerCase (default EmptyString (User.email (Profile.user profile))) in
  let school := Js.toLowerCase (school_string (Profile.school profile)) in
  (callback query filter profile = true
   ↔ substring_of q name ∨ substring_of q email ∨ substring_of q school)
  ∧ (filteredProfiles [profile] query filter = [profile]
     ↔ substring_of q name ∨ substring_of q email ∨ substring_of q school)
  ∧ (query = EmptyString → filteredProfiles [profile] query filter = [profile])
  ∧ callback query filter (with_user (nulls_as_empty (Profile.user profile)) profile)
    = callback query filter profile.
Proof.
  intros Hpass. cbv zeta.
  assert (Hcb : ∀ query', callback query' filter profile = text_matches query' profile).
  { intros query'. by rewrite callback_guards, Hpass. }
  split; [rewrite Hcb; apply text_matches_true|].
  split.
  { rewrite filteredProfiles_single, Hcb, <- text_matches_true.
    destruct (text_matches query profile); split; done. }
  split.
  { intros ->. by rewrite filteredProfiles_single, Hcb, text_matches_empty_query. }
  rewrite !callback_guards.
  replace (passes_structured filter
             (with_user (nulls_as_empty (Profile.user profile)) profile))
    with (passes_structured filter profile) by reflexivity.
  f_equal. apply bool_eq_iff. rewrite !text_matches_true. simpl. reflexivity.
Qed.

(** The spec's profile Alex is kept by the unset filter for the query "ale". *)
Lemma text_query_witness :
  let P := sample_profile (Some "Alex") (Some "a@x.com") "UCLA" 5 5 in
  passes_structured Filter.empty P = true
  ∧ (filteredProfiles [P] "ale" Filter.empty = [P]
     ↔ substring_of "ale" "alex" ∨ substring_of "ale" "a@x.com"
       ∨ substring_of "ale" "ucla").
Proof.
  intros P. split; [reflexivity|].
  exact (proj1 (proj2 (text_query "ale" Filter.empty P eq_refl))).
Defined.

(** The spec's sample: Alex of UCLA against the queries "ale", "zzz", "" and
    (through the school) "ucl". *)
Example alex_sample :
  let P := sample_profile (Some "Alex") (Some "a@x.com") "UCLA" 5 5 in
  filteredProfiles [P] "ale" Filter.empty = [P]
  ∧ filteredProfiles [P] "zzz" Filter.empty = []
  ∧ filteredProfiles [P] "" Filter.empty = [P]
  ∧ filteredProfiles [P] "ucl" Filter.empty = [P].
Proof. repeat split; vm_compute; reflexivity. Qed.

(** ** Enum properties *)

(** C4.  For each of assigned_sex, day_volume, night_volume, school and
    status the guard fires exactly when the filter and the profile both hold
    a value and the two differ; a profile on which one of them fires is
    dropped.  A guard whose filter value is [null] or missing, or whose
    profile value is [null], does not fire.  The profile's school, which the
    page's type gives without [null], is covered both as typed and as a
    run-time value that may be [null].  The callback, and with it the
    filter on a one-profile list, keeps a profile exactly when no enum
    property is present on both sides with different values and the other
    criteria of the spec allow it; with the empty query and nothing else
    set, a profile with non-negative scores is returned unless the one enum
    property set is present in the profile with another value. *)
Theorem enum_exclusion `{PrismaEnums} (query : string) (filter : Filter.t)
    (profile : Profile.t) (raw : RawProfile.t) :
  (enum_excludes (Filter.assigned_sex filter) (Profile.assigned_sex profile) = true
   ↔ ∃ a b, Filter.assigned_sex filter = Some a
            ∧ Profile.assigned_sex profile = Some b ∧ a ≠ b)
  ∧ (enum_excludes (Filter.day_volume filter) (Profile.day_volume profile) = true
     ↔ ∃ a b, Filter.day_volume filter = Some a
              ∧ Profile.day_volume profile = Some b ∧ a ≠ b)
  ∧ (enum_excludes (Filter.night_volume filter) (Profile.night_volume profile) = true
     ↔ ∃ a b, Filter.night_volume filter = Some a
              ∧ Profile.night_volume profile = Some b ∧ a ≠ b)
  ∧ (enum_excludes (Filter.status filter) (Profile.status profile) = true
     ↔ ∃ a b, Filter.status filter = Some a
              ∧ Profile.status profile = Some b ∧ a ≠ b)
  ∧ (enum_excludes (Filter.school filter) (Some (Profile.school profile)) = true
     ↔ ∃ a, Filter.school filter = Some a ∧ a ≠ Profile.school profile)
  ∧ (enum_excludes (Filter.school filter) (RawProfile.school raw) = true
     ↔ ∃ a b, Filter.school filter = Some a
              ∧ RawProfile.school raw = Some b ∧ a ≠ b)
  ∧ (enum_excludes (Filter.assigned_sex filter) (Profile.assigned_sex profile) = true
     ∨ enum_excludes (Filter.day_volume filter) (Profile.day_volume profile) = true
     ∨ enum_excludes (Filter.night_volume filter) (Profile.night_volume profile) = true
     ∨ enum_excludes (Filter.school filter) (Some (Profile.school profile)) = true
     ∨ enum_excludes (Filter.status filter) (Profile.status profile) = true →
     callback query filter profile = false
     ∧ filteredProfiles [profile] query filter = [])
  ∧ (∀ (A : Type) (HA : EqDecision A) (filter_x profile_x : option A),
       filter_x = None ∨ profile_x = None → enum_excludes filter_x profile_x = false)
  ∧ (callback query filter profile = true
     ↔ ¬ (∃ a b, Filter.assigned_sex filter = Some a
                 ∧ Profile.assigned_sex profile = Some b ∧ a ≠ b)
       ∧ ¬ (∃ a b, Filter.day_volume filter = Some a
                   ∧ Profile.day_volume profile = Some b ∧ a ≠ b)
       ∧ ¬ (∃ a b, Filter.night_volume filter = Some a
                   ∧ Profile.night_volume profile = Some b ∧ a ≠ b)
       ∧ ¬ (∃ a, Filter.school filter = Some a ∧ a ≠ Profile.school profile)
       ∧ ¬ (∃ a b, Filter.status filter = Some a
                   ∧ Profile.status profile = Some b ∧ a ≠ b)
       ∧ flags_allow filter profile ∧ scores_allow filter profile
       ∧ text_allows query profile)
  ∧ (filteredProfiles [profile] query filter = [profile]
     ↔ ¬ (∃ a b, Filter.assigned_sex filter = Some a
                 ∧ Profile.assigned_sex profile = Some b ∧ a ≠ b)
       ∧ ¬ (∃ a b, Filter.day_volume filter = Some a
                   ∧ Profile.day_volume profile = Some b ∧ a ≠ b)
       ∧ ¬ (∃ a b, Filter.night_volume filter = Some a
                   ∧ Profile.night_volume profile = Some b ∧ a ≠ b)
       ∧ ¬ (∃ a, Filter.school filter = Some a ∧ a ≠ Profile.school profile)
       ∧ ¬ (∃ a b, Filter.status filter = Some a
                   ∧ Profile.status profile = Some b ∧ a ≠ b)
       ∧ flags_allow filter profile ∧ scores_allow filter profile
       ∧ text_allows query profile)
  ∧ (∀ v : option Sex,
       filteredProfiles [profile] EmptyString (with_assigned_sex v Filter.empty) = [profile]
       ↔ ¬ (∃ a b, v = Some a ∧ Profile.assigned_sex profile = Some b ∧ a ≠ b)
         ∧ 0 ≤ Profile.neatness profile
         ∧ 0 ≤ Profile.social_energy_level profile)
  ∧ (∀ v : option Volume,
       filteredProfiles [profile] EmptyString (with_day_volume v Filter.empty) = [profile]
       ↔ ¬ (∃ a b, v = Some a ∧ Profile.day_volume profile = Some b ∧ a ≠ b)
         ∧ 0 ≤ Profile.neatness profile
         ∧ 0 ≤ Profile.social_energy_level profile)
  ∧ (∀ v : option Volume,
       filteredProfiles [profile] EmptyString (with_night_volume v Filter.empty) = [profile]
       ↔ ¬ (∃ a b, v = Some a ∧ Profile.night_volume profile = Some b ∧ a ≠ b)
         ∧ 0 ≤ Profile.neatness profile
         ∧ 0 ≤ Profile.social_energy_level profile)
  ∧ (∀ v : option School,
       filteredProfiles [profile] EmptyString (with_school v Filter.empty) = [profile]
       ↔ ¬ (∃ a, v = Some a ∧ a ≠ Profile.school profile)
         ∧ 0 ≤ Profile.neatness profile
         ∧ 0 ≤ Profile.social_energy_level profile)
  ∧ (∀ v : option Status,
       filteredProfiles [profile] EmptyString (with_status v Filter.empty) = [profile]
       ↔ ¬ (∃ a b, v = Some a ∧ Profile.status profile = Some b ∧ a ≠ b)
         ∧ 0 ≤ Profile.neatness profile
         ∧ 0 ≤ Profile.social_energy_level profile).
Proof.
  assert (Hkeeps : callback query filter profile = true
     ↔ ¬ (∃ a b, Filter.assigned_sex filter = Some a
                 ∧ Profile.assigned_sex profile = Some b ∧ a ≠ b)
       ∧ ¬ (∃ a b, Filter.day_volume filter = Some a
                   ∧ Profile.day_volume profile = Some b ∧ a ≠ b)
       ∧ ¬ (∃ a b, Filter.night_volume filter = Some a
                   ∧ Profile.night_volume profile = Some b ∧ a ≠ b)
       ∧ ¬ (∃ a, Filter.school filter = Some a ∧ a ≠ Profile.school profile)
       ∧ ¬ (∃ a b, Filter.status filter = Some a
                   ∧ Profile.status profile = Some b ∧ a ≠ b)
       ∧ flags_allow filter profile ∧ scores_allow filter profile
       ∧ text_allows query profile).
  { rewrite callback_spec. unfold enums_allow. tauto. }
  repeat (split; [apply enum_excludes_true|]).
  split.
  { rewrite enum_excludes_true. split.
    - intros (a & b & Hf & [= <-] & Hne). eauto.
    - intros (a & Hf & Hne). eauto. }
  split; [apply enum_excludes_true|].
  split.
  { intros Hfires.
    assert (Hdrop : callback query filter profile = false).
    { apply callback_rejected. unfold passes_structured.
      destruct Hfires as [Hf | [Hf | [Hf | [Hf | Hf]]]]; rewrite Hf; simpl;
        rewrite ?andb_false_r; reflexivity. }
    split; [done|]. by rewrite filteredProfiles_single, Hdrop. }
  split.
  { intros A HA filter_x profile_x [-> | ->].
    - apply enum_excludes_null_filter.
    - apply enum_excludes_null_profile. }
  split; [exact Hkeeps|].
  split; [by rewrite filteredProfiles_single_kept|].
  split; [intros v; single_property_filter|].
  split; [intros v; single_property_filter|].
  split; [intros v; single_property_filter|].
  split; [intros v; single_property_filter|].
  intros v; single_property_filter.
Qed.

Lemma enum_exclusion_witness :
  let P := sample_profile (Some "Alex") (Some "a@x.com") "UCLA" 5 5 in
  enum_excludes (Filter.school (only_school "USC")) (Some (Profile.school P)) = true
  ∧ filteredProfiles [P] EmptyString (only_school "USC") = []
  ∧ filteredProfiles [P] EmptyString (only_school "UCLA") = [P].
Proof.
  intros P.
  destruct (enum_exclusion EmptyString (only_school "USC") P anonymous_raw_profile)
    as (_ & _ & _ & _ & _ & _ & Hdropped & _ & _ & _ & _ & _ & _ & Hschool & _).
  split; [reflexivity|]. split.
  - apply Hdropped. right; right; right; left. reflexivity.
  - apply (Hschool (Some "UCLA")). split; [|simpl; lia].
    intros (a & [= <-] & Hne). by apply Hne.
Defined.

(** A school filter against profiles of that school and of another one. *)
Example school_sample :
  let P := sample_profile (Some "Alex") (Some "a@x.com") "UCLA" 5 5 in
  filteredProfiles [P] EmptyString (only_school "UCLA") = [P]
  ∧ filteredProfiles [P] EmptyString (only_school "USC") = [].
Proof. split; vm_compute; reflexivity. Qed.

(** ** The unset filter *)

Lemma passes_structured_empty `{PrismaEnums} (profile : Profile.t) :
  passes_structured Filter.empty profile = true
  ↔ 0 ≤ Profile.neatness profile ∧ 0 ≤ Profile.social_energy_level profile.
Proof.
  unfold passes_structured. simpl.
  rewrite !andb_true_r, andb_true_iff, !negb_true_iff, !score_excludes_false.
  simpl. reflexivity.
Qed.

(** C5, as the code has it.  With the empty query and the object [{}] as
    filter, a profile whose neatness and social energy level are not
    negative is returned: no checkbox, enum or text test drops it, and both
    score thresholds are 0. *)
Theorem empty_filter_keeps `{PrismaEnums} (profile : Profile.t) :
  0 ≤ Profile.neatness profile →
  0 ≤ Profile.social_energy_level profile →
  filteredProfiles [profile] EmptyString Filter.empty = [profile].
Proof.
  intros Hneat Hsocial.
  rewrite filteredProfiles_single, callback_guards, text_matches_empty_query.
  by rewrite (proj2 (passes_structured_empty profile) (conj Hneat Hsocial)).
Qed.

Lemma empty_filter_keeps_witness :
  let P := sample_profile None None "UCLA" 0 0 in
  0 ≤ Profile.neatness P ∧ 0 ≤ Profile.social_energy_level P
  ∧ filteredProfiles [P] EmptyString Filter.empty = [P].
Proof.
  intros P. split; [simpl; lia|]. split; [simpl; lia|].
  apply (empty_filter_keeps P); simpl; lia.
Defined.

(** C5, as stated, fails: the unset neatness minimum is the threshold 0,
    which a profile of neatness -1 does not reach. *)
Lemma empty_filter_drops_negative_score :
  let P := sample_profile (Some "Alex") (Some "a@x.com") "UCLA" (-1) 5 in
  filteredProfiles [P] EmptyString Filter.empty = []
  ∧ filteredProfiles [P] EmptyString Filter.empty ≠ [P].
Proof. intros P. split; [reflexivity | discriminate]. Qed.

(** With the unset filter and the empty query the score guards are the
    only ones that can fire. *)
Lemma empty_filter_single `{PrismaEnums} (profile : Profile.t) :
  filteredProfiles [profile] EmptyString Filter.empty = [profile]
  ↔ 0 ≤ Profile.neatness profile ∧ 0 ≤ Profile.social_energy_level profile.
Proof.
  rewrite filteredProfiles_single, callback_guards, text_matches_empty_query,
    andb_true_r, <- passes_structured_empty.
  destruct (passes_structured Filter.empty profile); split; done.
Qed.

(** ** Order of the result *)

Lemma list_filter_sublist {A : Type} (cb : A → bool) (xs : list A) :
  List.filter cb xs `sublist_of` xs.
Proof.
  induction xs as [|x xs IH]; simpl.
  - constructor.
  - destruct (cb x); by constructor.
Qed.

(** C6.  The result is the input with the profiles the callback rejects
    removed: the kept profiles are exactly those of the input on which the
    callback answers [true], they stand in the input's order with their
    multiplicities, and of three profiles of which the first and the last
    are accepted the result holds these two in that order. *)
Theorem filter_is_stable `{PrismaEnums} (profiles : list Profile.t)
    (query : string) (filter : Filter.t) :
  filteredProfiles profiles query filter
  = List.filter (callback query filter) profiles
  ∧ filteredProfiles profiles query filter `sublist_of` profiles
  ∧ (∀ profile, profile ∈ filteredProfiles profiles query filter
       ↔ profile ∈ profiles ∧ callback query filter profile = true)
  ∧ (∀ before after,
       profiles = before ++ after →
       filteredProfiles profiles query filter
       = filteredProfiles before query filter ++ filteredProfiles after query filter)
  ∧ (∀ A B C,
       callback query filter A = true →
       callback query filter B = false →
       callback query filter C = true →
       filteredProfiles [A; B; C] query filter = [A; C]).
Proof.
  split; [apply filteredProfiles_filter|].
  split; [rewrite filteredProfiles_filter; apply list_filter_sublist|].
  split; [intros profile; apply filteredProfiles_elem|].
  split.
  - intros before after ->. rewrite !filteredProfiles_filter. apply List.filter_app.
  - intros A B C HA HB HC. rewrite filteredProfiles_filter. simpl.
    by rewrite HA, HB, HC.
Qed.

Lemma filter_is_stable_witness :
  let A := sample_profile (Some "Ann") None "UCLA" 5 5 in
  let B := sample_profile (Some "Bob") None "UCSB" 5 5 in
  let C := sample_profile (Some "Cat") None "USC" 5 5 in
  callback "a" Filter.empty A = true
  ∧ callback "a" Filter.empty B = false
  ∧ callback "a" Filter.empty C = true
  ∧ filteredProfiles [A; B; C] "a" Filter.empty = [A; C].
Proof.
  intros A B C.
  destruct (filter_is_stable [A; B; C] "a" Filter.empty) as (_ & _ & _ & _ & Hthree).
  split; [reflexivity|]. split; [reflexivity|]. split; [reflexivity|].
  apply Hthree; reflexivity.
Defined.

(** Three sample profiles of which the query "a" keeps the first and the
    last. *)
Example stable_sample :
  let A := sample_profile (Some "Ann") None "UCLA" 5 5 in
  let B := sample_profile (Some "Bob") None "UCSB" 5 5 in
  let C := sample_profile (Some "Cat") None "USC" 5 5 in
  filteredProfiles [A; B; C] "a" Filter.empty = [A; C].
Proof. vm_compute. reflexivity. Qed.

(** ** Permissions on the group page *)

(** C7.  Deleting the group is permitted exactly for an ADMIN membership
    whose group lists at most one member: an ADMIN of a group of two is
    refused, a MEMBER of a group of one is refused. *)
Theorem delete_group_permission (membership : Membership.t) :
  let size := length (Group.members (Membership.group membership)) in
  (canDeleteGroup membership = true
   ↔ Membership.role membership = ADMIN ∧ (size ≤ 1)%nat)
  ∧ (Membership.role membership = ADMIN → size = 1%nat →
     canDeleteGroup membership = true)
  ∧ (Membership.role membership = ADMIN → size = 2%nat →
     canDeleteGroup membership = false)
  ∧ (Membership.role membership = MEMBER → size = 1%nat →
     canDeleteGroup membership = false).
Proof.
  intros size.
  assert (Hiff : canDeleteGroup membership = true
                 ↔ Membership.role membership = ADMIN ∧ (size ≤ 1)%nat).
  { unfold canDeleteGroup, delete_rendered, delete_disabled. fold size.
    rewrite andb_true_iff, negb_true_iff, orb_false_iff, negb_false_iff,
      !bool_decide_eq_true, Nat.ltb_ge. tauto. }
  split; [exact Hiff|].
  split; [intros Hrole Hsize; apply Hiff; split; [done | lia]|].
  split; intros Hrole Hsize; apply not_true_is_false; rewrite Hiff.
  - intros [_ Hle]. lia.
  - intros [Hadmin _]. congruence.
Qed.

Lemma delete_group_permission_witness :
  let membership := sample_membership ADMIN [("u2", MEMBER)] in
  Membership.role membership = ADMIN
  ∧ length (Group.members (Membership.group membership)) = 2%nat
  ∧ canDeleteGroup membership = false.
Proof.
  intros membership.
  destruct (delete_group_permission membership) as (_ & _ & Htwo & _).
  split; [reflexivity|]. split; [reflexivity|].
  apply Htwo; reflexivity.
Defined.

(** C8.  Removing a listed member is permitted exactly when that member is
    no ADMIN and is not the acting user: an ADMIN target is refused whatever
    the acting membership's role, and so is the acting user. *)
Theorem remove_member_permission (membership : Membership.t) (targetMember : Member.t) :
  (canRemoveMember membership targetMember = true
   ↔ Member.role targetMember ≠ ADMIN
     ∧ Member.userId targetMember ≠ Membership.userId membership)
  ∧ (Member.role targetMember = ADMIN →
     canRemoveMember membership targetMember = false)
  ∧ (Member.userId targetMember = Membership.userId membership →
     canRemoveMember membership targetMember = false).
Proof.
  unfold canRemoveMember, remove_disabled.
  split; [|split].
  - rewrite negb_true_iff, orb_false_iff, !bool_decide_eq_false. reflexivity.
  - intros Hadmin. by rewrite (bool_decide_eq_true_2 _ Hadmin).
  - intros Hself. by rewrite (bool_decide_eq_true_2 _ Hself), orb_true_r.
Qed.

Lemma remove_member_permission_witness :
  let membership := sample_membership MEMBER [("u2", ADMIN)] in
  let target := sample_member "u2" ADMIN in
  Member.role target = ADMIN ∧ canRemoveMember membership target = false.
Proof.
  intros membership target.
  destruct (remove_member_permission membership target) as (_ & Hadmin & _).
  split; [reflexivity|].
  apply Hadmin; reflexivity.
Defined.

(** C10.  An ADMIN whose group lists more than one member can neither
    delete the group nor leave it. *)
Theorem admin_with_members_cannot_exit (membership : Membership.t) :
  Membership.role membership = ADMIN →
  (1 < length (Group.members (Membership.group membership)))%nat →
  canDeleteGroup membership = false ∧ canLeaveGroup membership = false.
Proof.
  intros Hadmin Hsize.
  unfold canDeleteGroup, canLeaveGroup, delete_rendered, delete_disabled,
    leave_disabled.
  rewrite (bool_decide_eq_true_2 _ Hadmin).
  apply Nat.ltb_lt in Hsize. rewrite Hsize. done.
Qed.

Lemma admin_with_members_cannot_exit_witness :
  let membership := sample_membership ADMIN [("u2", MEMBER)] in
  Membership.role membership = ADMIN
  ∧ (1 < length (Group.members (Membership.group membership)))%nat
  ∧ canDeleteGroup membership = false ∧ canLeaveGroup membership = false.
Proof.
  intros membership. split; [reflexivity|]. split; [simpl; lia|].
  apply (admin_with_members_cannot_exit membership); [reflexivity | simpl; lia].
Defined.

(** Once the other members are gone the ADMIN can delete the group, and a
    MEMBER can always leave. *)
Example exit_samples :
  canDeleteGroup (sample_membership ADMIN []) = true
  ∧ canDeleteGroup (sample_membership ADMIN [("u2", MEMBER)]) = false
  ∧ canDeleteGroup (sample_membership MEMBER []) = false
  ∧ canLeaveGroup (sample_membership MEMBER [("u2", ADMIN)]) = true
  ∧ canRemoveMember (sample_membership ADMIN [("u2", MEMBER)]) (sample_member "u2" MEMBER) = true
  ∧ canRemoveMember (sample_membership ADMIN [("u2", MEMBER)]) (sample_member "u1" ADMIN) = false.
Proof. repeat split. Qed.

(** ** Exceptions *)

Lemma list_filter_map {A B : Type} (g : A → B) (cb : B → bool) (xs : list A) :
  List.filter cb (map g xs) = map g (List.filter (λ x, cb (g x)) xs).
Proof.
  induction xs as [|x xs IH]; simpl; [done|].
  destruct (cb (g x)); simpl; by rewrite IH.
Qed.

Lemma text_matches_raw_of_profile `{PrismaEnums} (query : string) (profile : Profile.t) :
  text_matches_raw query (RawProfile.of_profile profile)
  = Js.Ok (text_matches query profile).
Proof.
  unfold text_matches_raw, text_matches. simpl.
  destruct (Js.to_boolean (Js.chain_includes (User.name (Profile.user profile)) query));
    [done|].
  destruct (Js.to_boolean (Js.chain_includes (User.email (Profile.user profile)) query));
    done.
Qed.

(** On a typed profile the run-time evaluation returns what [callback]
    computes. *)
Lemma callback_raw_of_profile `{PrismaEnums} (query : string) (filter : Filter.t)
    (profile : Profile.t) :
  callback_raw query filter (RawProfile.of_profile profile)
  = Js.Ok (callback query filter profile).
Proof.
  unfold callback_raw, callback. simpl.
  walk_guards (@Js.Ok bool false) ltac:(reflexivity).
  apply text_matches_raw_of_profile.
Qed.

(** The only expression of the callback that can raise is
    [profile.school.toLowerCase()]. *)
Lemma callback_raw_with_school `{PrismaEnums} (query : string) (filter : Filter.t)
    (raw : RawProfile.t) :
  is_Some (RawProfile.school raw) →
  ∃ keep, callback_raw query filter raw = Js.Ok keep.
Proof.
  intros [school Hschool]. unfold callback_raw.
  walk_guards (@Js.Ok bool false) ltac:(by eexists).
  unfold text_matches_raw. rewrite Hschool. simpl.
  walk_guards (@Js.Ok bool true) ltac:(by eexists).
  by eexists.
Qed.

Lemma filteredProfiles_raw_of_profiles `{PrismaEnums} (profiles : list Profile.t)
    (query : string) (filter : Filter.t) :
  filteredProfiles_raw (map RawProfile.of_profile profiles) query filter
  = Js.Ok (map RawProfile.of_profile (filteredProfiles profiles query filter)).
Proof.
  unfold filteredProfiles_raw, Js.filter_throwing.
  pose (cb := λ raw : RawProfile.t,
          match callback_raw query filter raw with
          | Js.Ok keep => keep
          | Js.TypeError => false
          end).
  rewrite (filter_throwing_loop _ cb).
  - simpl. rewrite list_filter_map, filteredProfiles_filter. f_equal.
    f_equal. apply List.filter_ext. intros profile. unfold cb.
    by rewrite callback_raw_of_profile.
  - apply Forall_forall. intros raw [profile [-> _]]%list_elem_of_fmap.
    unfold cb. by rewrite callback_raw_of_profile.
Qed.

Lemma filter_throwing_raises {A : Type} (cb_raw : A → Js.Result bool)
    (xs : list A) (acc : Js.Result (list A)) :
  Exists (λ x, cb_raw x = Js.TypeError) xs →
  fold_left
    (λ acc x,
       Js.bind acc (λ kept,
       Js.bind (cb_raw x) (λ keep,
       Js.Ok (if keep then kept ++ [x] else kept))))
    xs acc
  = Js.TypeError.
Proof.
  intros Hraises. revert acc.
  induction Hraises as [x xs Hx | x xs _ IH]; intros acc; simpl.
  - rewrite Hx. destruct acc; simpl; apply filter_throwing_stuck.
  - apply IH.
Qed.

(** One raising profile makes the whole filter raise. *)
Lemma filteredProfiles_raw_raises `{PrismaEnums} (raws : list RawProfile.t)
    (query : string) (filter : Filter.t) :
  Exists (λ raw, callback_raw query filter raw = Js.TypeError) raws →
  filteredProfiles_raw raws query filter = Js.TypeError.
Proof. apply filter_throwing_raises. Qed.

(** C9, as the code has it.  On profiles of the page's type, whatever the
    name, the e-mail address and the enum properties other than the school
    hold ([null] included) and whatever the filter and the query hold, the
    run-time evaluation of the filter returns normally, with the list that
    [filteredProfiles] computes.  On untyped profiles it returns normally
    as soon as every school is present, and the callback raises only on a
    profile whose school is [null].  The three permission predicates read
    no property that may be missing and answer [true] or [false]. *)
Theorem evaluation_completes `{PrismaEnums} (query : string) (filter : Filter.t) :
  (∀ profiles : list Profile.t,
     filteredProfiles_raw (map RawProfile.of_profile profiles) query filter
     = Js.Ok (map RawProfile.of_profile (filteredProfiles profiles query filter)))
  ∧ (∀ raws : list RawProfile.t,
       Forall (λ raw, is_Some (RawProfile.school raw)) raws →
       ∃ kept, filteredProfiles_raw raws query filter = Js.Ok kept
               ∧ kept `sublist_of` raws)
  ∧ (∀ raw : RawProfile.t,
       callback_raw query filter raw = Js.TypeError → RawProfile.school raw = None)
  ∧ (∀ membership targetMember,
       (canRemoveMember membership targetMember = true
        ∨ canRemoveMember membership targetMember = false)
       ∧ (canDeleteGroup membership = true ∨ canDeleteGroup membership = false)
       ∧ (canLeaveGroup membership = true ∨ canLeaveGroup membership = false)).
Proof.
  split; [intros profiles; apply filteredProfiles_raw_of_profiles|].
  split.
  { intros raws Hschools.
    pose (cb := λ raw : RawProfile.t,
            match callback_raw query filter raw with
            | Js.Ok keep => keep
            | Js.TypeError => false
            end).
    exists (List.filter cb raws). split; [|apply list_filter_sublist].
    unfold filteredProfiles_raw, Js.filter_throwing.
    rewrite (filter_throwing_loop _ cb); [done|].
    eapply Forall_impl; [exact Hschools|].
    intros raw [keep Hkeep]%(callback_raw_with_school query filter).
    unfold cb. by rewrite Hkeep. }
  split.
  { intros raw Hthrows. destruct (RawProfile.school raw) as [school|] eqn:Hschool;
      [|done].
    destruct (callback_raw_with_school query filter raw) as [keep Hkeep];
      [by rewrite Hschool | congruence]. }
  intros membership targetMember.
  destruct (canRemoveMember membership targetMember),
    (canDeleteGroup membership), (canLeaveGroup membership); auto.
Qed.

Lemma evaluation_completes_witness :
  let raws :=
    [RawProfile.of_profile (sample_profile None None "UCLA" 5 5);
     RawProfile.of_profile (sample_profile (Some "") None "USC" 0 0)] in
  Forall (λ raw, is_Some (RawProfile.school raw)) raws
  ∧ ∃ kept, filteredProfiles_raw raws "usc" Filter.empty = Js.Ok kept
            ∧ kept `sublist_of` raws.
Proof.
  intros raws.
  assert (Hschools : Forall (λ raw, is_Some (RawProfile.school raw)) raws).
  { repeat constructor; by eexists. }
  split; [exact Hschools|].
  exact (proj1 (proj2 (evaluation_completes "usc" Filter.empty)) raws Hschools).
Defined.

(** C9, as stated, fails: a profile whose school is [null] and whose name
    and e-mail address are [null] reaches [profile.school.toLowerCase()],
    which raises, and the exception aborts the whole filter. *)
Lemma null_school_raises :
  callback_raw EmptyString Filter.empty anonymous_raw_profile = Js.TypeError
  ∧ filteredProfiles_raw [anonymous_raw_profile] EmptyString Filter.empty = Js.TypeError
  ∧ ¬ ∃ kept,
        filteredProfiles_raw [anonymous_raw_profile] EmptyString Filter.empty
        = Js.Ok kept.
Proof.
  split; [reflexivity|]. split; [reflexivity|].
  intros [kept Hkept]. discriminate Hkept.
Qed.

(** * Further properties of the explore page *)

(** ** Strings *)

Lemma app_cons (a : ascii) (s t : string) :
  String a s +:+ t = String a (s +:+ t).
Proof. reflexivity. Qed.

Lemma app_empty_r (s : string) : s +:+ EmptyString = s.
Proof. induction s as [|a s IH]; [done|]. by rewrite app_cons, IH. Qed.

Lemma app_assoc_string (s t u : string) : (s +:+ t) +:+ u = s +:+ (t +:+ u).
Proof. induction s as [|a s IH]; [done|]. by rewrite !app_cons, IH. Qed.


Lemma app_empty_inv (s t : string) :
  s +:+ t = EmptyString → s = EmptyString ∧ t = EmptyString.
Proof. destruct s; [done | discriminate]. Qed.

Lemma substring_of_refl (s : string) : substring_of s s.
Proof. exists EmptyString, EmptyString. by rewrite app_empty_r. Qed.

Lemma substring_of_trans (s t u : string) :
  substring_of s t → substring_of t u → substring_of s u.
Proof.
  intros (b1 & a1 & ->) (b2 & a2 & ->).
  exists (b2 +:+ b1), (a1 +:+ a2). by rewrite !app_assoc_string.
Qed.

Lemma lower_unit_idempotent (c : ascii) :
  Js.lower_unit (Js.lower_unit c) = Js.lower_unit c.
Proof. destruct c as [[] [] [] [] [] [] [] []]; reflexivity. Qed.

Lemma toLowerCase_idempotent (s : string) :
  Js.toLowerCase (Js.toLowerCase s) = Js.toLowerCase s.
Proof.
  induction s as [|a s IH]; simpl; [done|].
  by rewrite lower_unit_idempotent, IH.
Qed.

(** ** Lists *)

Lemma list_filter_idempotent {A : Type} (cb : A → bool) (xs : list A) :
  List.filter cb (List.filter cb xs) = List.filter cb xs.
Proof.
  induction xs as [|x xs IH]; simpl; [done|].
  destruct (cb x) eqn:Hx; simpl; [|done]. by rewrite Hx, IH.
Qed.

Lemma list_filter_sublist_impl {A : Type} (cb cb' : A → bool) (xs : list A) :
  (∀ x, cb' x = true → cb x = true) →
  List.filter cb' xs `sublist_of` List.filter cb xs.
Proof.
  intros Himpl. induction xs as [|x xs IH]; simpl; [constructor|].
  destruct (cb' x) eqn:Hx'.
  - rewrite (Himpl x Hx'). by constructor.
  - destruct (cb x); [by constructor | done].
Qed.

Lemma map_sublist {A B : Type} (g : A → B) (xs ys : list A) :
  xs `sublist_of` ys → map g xs `sublist_of` map g ys.
Proof. induction 1; simpl; by constructor. Qed.

(** ** The query *)

Lemma text_matches_narrower `{PrismaEnums} (query query' : string) (profile : Profile.t) :
  substring_of (Js.toLowerCase query) (Js.toLowerCase query') →
  text_matches query' profile = true → text_matches query profile = true.
Proof.
  intros Hsub. rewrite !text_matches_true.
  intros [Hname | [Hemail | Hschool]];
    [left | right; left | right; right]; by eapply substring_of_trans.
Qed.

(** X1.  A query that contains another shows no more than it: when the
    lower-cased [query] occurs in the lower-cased [query'], the profiles
    kept for [query'] are a subsequence of those kept for [query], under
    every filter. *)
Theorem longer_query_narrows `{PrismaEnums} (profiles : list Profile.t)
    (query query' : string) (filter : Filter.t) :
  substring_of (Js.toLowerCase query) (Js.toLowerCase query') →
  filteredProfiles profiles query' filter
    `sublist_of` filteredProfiles profiles query filter.
Proof.
  intros Hsub. rewrite !filteredProfiles_filter.
  apply list_filter_sublist_impl. intros profile.
  rewrite !callback_guards, !andb_true_iff. intros [Hpass Htext].
  split; [done|]. by eapply text_matches_narrower.
Qed.

Lemma longer_query_narrows_witness :
  substring_of (Js.toLowerCase "A") (Js.toLowerCase "an")
  ∧ filteredProfiles sample_profiles "an" Filter.empty
      `sublist_of` filteredProfiles sample_profiles "A" Filter.empty.
Proof.
  assert (Hsub : substring_of (Js.toLowerCase "A") (Js.toLowerCase "an")).
  { by exists EmptyString, "n". }
  split; [exact Hsub|].
  exact (longer_query_narrows sample_profiles "A" "an" Filter.empty Hsub).
Defined.

(** X2.  The search ignores the case of the query: two queries with the
    same lower-cased form keep the same profiles, and so do a query and its
    lower-cased form. *)
Theorem query_case_is_ignored `{PrismaEnums} (profiles : list Profile.t)
    (query query' : string) (filter : Filter.t) :
  (Js.toLowerCase query = Js.toLowerCase query' →
   filteredProfiles profiles query filter = filteredProfiles profiles query' filter)
  ∧ filteredProfiles profiles (Js.toLowerCase query) filter
    = filteredProfiles profiles query filter.
Proof.
  assert (Hsame : ∀ q q', Js.toLowerCase q = Js.toLowerCase q' →
    filteredProfiles profiles q filter = filteredProfiles profiles q' filter).
  { intros q q' Hlower. rewrite !filteredProfiles_filter.
    apply List.filter_ext. intros profile. rewrite !callback_guards. f_equal.
    unfold text_matches, Js.chain_includes. by rewrite Hlower. }
  split; [apply Hsame|]. apply Hsame, toLowerCase_idempotent.
Qed.

Lemma query_case_is_ignored_witness :
  Js.toLowerCase "ANN" = Js.toLowerCase "aNn"
  ∧ filteredProfiles sample_profiles "ANN" Filter.empty
    = filteredProfiles sample_profiles "aNn" Filter.empty.
Proof.
  split; [reflexivity|].
  exact (proj1 (query_case_is_ignored sample_profiles "ANN" "aNn" Filter.empty)
           eq_refl).
Defined.

(** ** The list *)

(** X3.  Filtering is idempotent: running the filter again on its own
    result, with the same query and filter, changes nothing. *)
Theorem filtering_twice `{PrismaEnums} (profiles : list Profile.t)
    (query : string) (filter : Filter.t) :
  filteredProfiles (filteredProfiles profiles query filter) query filter
  = filteredProfiles profiles query filter.
Proof.
  rewrite (filteredProfiles_filter (filteredProfiles profiles query filter)).
  rewrite filteredProfiles_filter. apply list_filter_idempotent.
Qed.

(** X4.  The cards of [Profiles] are keyed by [profile.id]: when the loaded
    profiles have pairwise distinct ids, so have the rendered cards, and
    every rendered key is the id of a loaded profile. *)
Theorem card_keys_distinct `{PrismaEnums} (status : QueryStatus)
    (profiles : list Profile.t) (query : string) (filter : Filter.t)
    (keys : list string) :
  NoDup (map Profile.id profiles) →
  Profiles status profiles query filter = Content keys →
  NoDup keys ∧ keys `sublist_of` map Profile.id profiles.
Proof.
  intros Hdistinct Hrendered. destruct status; simpl in Hrendered; [done..|].
  injection Hrendered as <-.
  assert (Hsub : map Profile.id (filteredProfiles profiles query filter)
                   `sublist_of` map Profile.id profiles).
  { apply map_sublist. rewrite filteredProfiles_filter. apply list_filter_sublist. }
  split; [by eapply sublist_NoDup | done].
Qed.

Lemma card_keys_distinct_witness :
  NoDup (map Profile.id sample_profiles)
  ∧ Profiles success sample_profiles "a" Filter.empty = Content ["ann"; "cat"]
  ∧ NoDup ["ann"; "cat"].
Proof.
  assert (Hdistinct : NoDup (map Profile.id sample_profiles)).
  { compute_done. }
  split; [exact Hdistinct|]. split; [reflexivity|].
  exact (proj1 (card_keys_distinct success sample_profiles "a" Filter.empty
                  ["ann"; "cat"] Hdistinct eq_refl)).
Defined.

(** ** The minimums *)

Lemma score_excludes_monotone (m m' : option Z) (profile_x : Z) :
  default (-10) m ≤ default (-10) m' →
  score_excludes m profile_x = true → score_excludes m' profile_x = true.
Proof. rewrite !score_excludes_true. lia. Qed.

(** X5.  Raising a minimum never shows more: for [m ≤ m'] the profiles kept
    with the neatness minimum [m'] are a subsequence of those kept with
    [m], and likewise for the social energy minimum.  Leaving a minimum
    unset is the same as setting it to -10. *)
Theorem higher_minimum_narrows `{PrismaEnums} (profiles : list Profile.t)
    (query : string) (filter : Filter.t) (m m' : Z) :
  m ≤ m' →
  filteredProfiles profiles query (with_minimum_neatness (Some m') filter)
    `sublist_of` filteredProfiles profiles query (with_minimum_neatness (Some m) filter)
  ∧ filteredProfiles profiles query (with_minimum_social_energy_level (Some m') filter)
      `sublist_of`
      filteredProfiles profiles query (with_minimum_social_energy_level (Some m) filter)
  ∧ filteredProfiles profiles query (with_minimum_neatness None filter)
    = filteredProfiles profiles query (with_minimum_neatness (Some (-10)) filter)
  ∧ filteredProfiles profiles query (with_minimum_social_energy_level None filter)
    = filteredProfiles profiles query
        (with_minimum_social_energy_level (Some (-10)) filter).
Proof.
  intros Hle. rewrite !filteredProfiles_filter.
  split; [|split; [|split]].
  - apply list_filter_sublist_impl. intros profile.
    rewrite !callback_guards. unfold passes_structured. simpl.
    destruct (score_excludes (Some m') (Profile.neatness profile)) eqn:Hhigh.
    { simpl. rewrite ?andb_false_r. simpl. done. }
    destruct (score_excludes (Some m) (Profile.neatness profile)) eqn:Hlow; [|done].
    apply (score_excludes_monotone (Some m) (Some m')) in Hlow; [congruence | done].
  - apply list_filter_sublist_impl. intros profile.
    rewrite !callback_guards. unfold passes_structured. simpl.
    destruct (score_excludes (Some m') (Profile.social_energy_level profile))
      eqn:Hhigh.
    { simpl. rewrite ?andb_false_r. simpl. done. }
    destruct (score_excludes (Some m) (Profile.social_energy_level profile))
      eqn:Hlow; [|done].
    apply (score_excludes_monotone (Some m) (Some m')) in Hlow; [congruence | done].
  - apply List.filter_ext. intros profile. reflexivity.
  - apply List.filter_ext. intros profile. reflexivity.
Qed.

Lemma higher_minimum_narrows_witness :
  0 ≤ 10
  ∧ filteredProfiles sample_profiles EmptyString
      (with_minimum_neatness (Some 10) Filter.empty)
    `sublist_of`
    filteredProfiles sample_profiles EmptyString
      (with_minimum_neatness (Some 0) Filter.empty).
Proof.
  split; [lia|].
  apply (higher_minimum_narrows sample_profiles EmptyString Filter.empty 0 10). lia.
Defined.

(** X6.  The form's [defaultValues], used as the filter, are not the unset
    filter: with both minimums 0 the thresholds are 10, so exactly the
    profiles with both scores at least 10 that match the query are kept,
    a subsequence of what the unset filter keeps; a profile with neatness
    between 0 and 9 is shown by the unset filter and hidden by the
    defaults. *)
Theorem default_values_filter `{PrismaEnums} (profiles : list Profile.t)
    (query : string) :
  filteredProfiles profiles query defaultValues
  = List.filter
      (λ profile, (10 <=? Profile.neatness profile)
                  && (10 <=? Profile.social_energy_level profile)
                  && text_matches query profile)
      profiles
  ∧ filteredProfiles profiles query defaultValues
      `sublist_of` filteredProfiles profiles query Filter.empty
  ∧ (∀ profile,
       0 ≤ Profile.neatness profile < 10 →
       0 ≤ Profile.social_energy_level profile →
       filteredProfiles [profile] EmptyString Filter.empty = [profile]
       ∧ filteredProfiles [profile] EmptyString defaultValues = []).
Proof.
  assert (Hdefaults : ∀ q profile,
    callback q defaultValues profile
    = (10 <=? Profile.neatness profile)
      && (10 <=? Profile.social_energy_level profile)
      && text_matches q profile).
  { intros q profile. rewrite callback_guards. unfold passes_structured. simpl.
    unfold score_excludes, threshold. simpl.
    rewrite !andb_true_r, !Z.gtb_ltb, <- !Z.leb_antisym. reflexivity. }
  split; [|split].
  - rewrite filteredProfiles_filter. apply List.filter_ext. intros profile.
    apply Hdefaults.
  - rewrite !filteredProfiles_filter. apply list_filter_sublist_impl.
    intros profile. rewrite Hdefaults, callback_guards, !andb_true_iff, !Z.leb_le.
    intros [[Hneat Hsocial] Htext]. split; [|done].
    apply passes_structured_empty. lia.
  - intros profile Hneat Hsocial. split.
    + apply empty_filter_single. lia.
    + rewrite filteredProfiles_single, Hdefaults.
      assert (Hlow : (10 <=? Profile.neatness profile) = false).
      { apply Z.leb_gt. lia. }
      by rewrite Hlow.
Qed.

Lemma default_values_filter_witness :
  let P := sample_profile (Some "Ann") None "UCLA" 5 5 in
  0 ≤ Profile.neatness P < 10 ∧ 0 ≤ Profile.social_energy_level P
  ∧ filteredProfiles [P] EmptyString Filter.empty = [P]
  ∧ filteredProfiles [P] EmptyString defaultValues = [].
Proof.
  intros P. split; [simpl; lia|]. split; [simpl; lia|].
  apply (proj2 (proj2 (default_values_filter [P] EmptyString)) P); simpl; lia.
Defined.

(** ** Exceptions, in full *)

Lemma callback_raw_guards `{PrismaEnums} (query : string) (filter : Filter.t)
    (raw : RawProfile.t) :
  callback_raw query filter raw
  = if passes_structured_raw filter raw
    then text_matches_raw query raw
    else Js.Ok false.
Proof.
  unfold callback_raw, passes_structured_raw.
  walk_guards (@Js.Ok bool false) ltac:(reflexivity). reflexivity.
Qed.

(** X7.  The callback raises on a profile exactly when the school is
    [null], no structured guard drops the profile, and neither the name nor
    the e-mail address contains the query: a profile without school is
    harmless as long as a guard or an earlier operand of [||] answers
    first. *)
Theorem callback_raises_iff `{PrismaEnums} (query : string) (filter : Filter.t)
    (raw : RawProfile.t) :
  callback_raw query filter raw = Js.TypeError
  ↔ RawProfile.school raw = None
    ∧ passes_structured_raw filter raw = true
    ∧ Js.to_boolean (Js.chain_includes (User.name (RawProfile.user raw)) query) = false
    ∧ Js.to_boolean (Js.chain_includes (User.email (RawProfile.user raw)) query) = false.
Proof.
  rewrite callback_raw_guards. unfold text_matches_raw.
  destruct (passes_structured_raw filter raw);
    [|split; [done | intros (_ & ? & _); done]].
  destruct (Js.to_boolean (Js.chain_includes (User.name (RawProfile.user raw)) query));
    [split; [done | intros (_ & _ & ? & _); done]|].
  destruct (Js.to_boolean (Js.chain_includes (User.email (RawProfile.user raw)) query));
    [split; [done | intros (_ & _ & _ & ?); done]|].
  destruct (RawProfile.school raw) as [school|]; simpl.
  - split; [done | intros (? & _); done].
  - split; done.
Qed.

Lemma raises_or_answers `{PrismaEnums} (query : string) (filter : Filter.t)
    (raws : list RawProfile.t) :
  Forall (λ raw, callback_raw query filter raw = Js.Ok (kept_raw query filter raw)) raws
  ∨ Exists (λ raw, callback_raw query filter raw = Js.TypeError) raws.
Proof.
  induction raws as [|raw raws [IH | IH]].
  - left. constructor.
  - destruct (callback_raw query filter raw) as [keep|] eqn:Hraw.
    + left. constructor; [|done]. unfold kept_raw. by rewrite Hraw.
    + right. by constructor.
  - right. by constructor.
Qed.

(** X8.  The filter over run-time profiles raises exactly when the callback
    raises on one of them, wherever it stands in the list: no partial list
    is returned.  Otherwise it returns the profiles on which the callback
    answers [true], in order. *)
Theorem filter_raises_iff `{PrismaEnums} (raws : list RawProfile.t)
    (query : string) (filter : Filter.t) :
  (filteredProfiles_raw raws query filter = Js.TypeError
   ↔ Exists (λ raw, callback_raw query filter raw = Js.TypeError) raws)
  ∧ (∀ kept, filteredProfiles_raw raws query filter = Js.Ok kept →
       kept = List.filter (kept_raw query filter) raws).
Proof.
  destruct (raises_or_answers query filter raws) as [Hanswers | Hraises].
  - assert (Hok : filteredProfiles_raw raws query filter
                  = Js.Ok (List.filter (kept_raw query filter) raws)).
    { unfold filteredProfiles_raw, Js.filter_throwing.
      by rewrite (filter_throwing_loop _ (kept_raw query filter)). }
    rewrite Hok. split.
    + split; [done|]. intros Hraises. exfalso.
      apply Exists_exists in Hraises as (raw & Hin & Hraw).
      rewrite Forall_forall in Hanswers. specialize (Hanswers raw Hin). congruence.
    + by intros kept [= <-].
  - rewrite (filteredProfiles_raw_raises raws query filter Hraises).
    split; [done | intros kept; discriminate].
Qed.

(** ** The error toast *)




(** Two failed fields, one without message. *)
Example error_text_sample :
  error_text [("school", Some "Required"); ("status", None)]
  = "school: Required" +:+ line_feed +:+ "status: undefined" +:+ line_feed.
Proof. reflexivity. Qed.

(** ** The state of the page *)

Lemma run_snoc `{PrismaEnums} (s : Explore.State) (events : list Explore.Event)
    (e : Explore.Event) :
  Explore.run s (events ++ [e]) = Explore.step (Explore.run s events) e.
Proof. unfold Explore.run. by rewrite fold_left_app. Qed.

Lemma run_without_submit `{PrismaEnums} (s : Explore.State)
    (events : list Explore.Event) :
  Forall (λ e, Explore.is_submit e = false) events →
  Explore.filter (Explore.run s events) = Explore.filter s
  ∨ Explore.filter (Explore.run s events) = Filter.empty.
Proof.
  induction events as [|e events IH] using rev_ind; intros Hnone; [by left|].
  apply Forall_app in Hnone as [Hnone He]. rewrite Forall_singleton in He.
  rewrite run_snoc. destruct e; simpl in *; try (by apply IH); [by right | done].
Qed.

(** X10.  Until a filter form is submitted successfully, whatever else
    happens on the page (typing, opening and closing the dialog, Reset,
    failed submits), the page shows exactly the loaded profiles with
    non-negative scores that match the current query, in their order. *)
Theorem shown_before_any_submit `{PrismaEnums} (profiles : list Profile.t)
    (events : list Explore.Event) :
  Forall (λ e, Explore.is_submit e = false) events →
  let s := Explore.run Explore.initial events in
  Explore.filter s = Filter.empty
  ∧ Explore.shown profiles s
    = List.filter
        (λ profile, (0 <=? Profile.neatness profile)
                    && (0 <=? Profile.social_energy_level profile)
                    && text_matches (Explore.query s) profile)
        profiles.
Proof.
  intros Hnone. cbv zeta.
  assert (Hempty : Explore.filter (Explore.run Explore.initial events) = Filter.empty).
  { by destruct (run_without_submit Explore.initial events Hnone). }
  split; [exact Hempty|].
  unfold Explore.shown. rewrite Hempty, filteredProfiles_filter.
  apply List.filter_ext. intros profile. rewrite callback_guards. f_equal.
  apply bool_eq_iff.
  rewrite passes_structured_empty, andb_true_iff, !Z.leb_le. reflexivity.
Qed.

Lemma shown_before_any_submit_witness :
  let events :=
    [Explore.click_filters; Explore.submit_invalid [("school", None)];
     Explore.click_reset; Explore.change "a"] in
  Forall (λ e, Explore.is_submit e = false) events
  ∧ Explore.filter (Explore.run Explore.initial events) = Filter.empty.
Proof.
  intros events.
  assert (Hnone : Forall (λ e, Explore.is_submit e = false) events).
  { repeat constructor. }
  split; [exact Hnone|].
  exact (proj1 (shown_before_any_submit sample_profiles events Hnone)).
Defined.

(** X11.  After any sequence of events from the initial state: the error
    toasts shown are exactly the texts of the failed submits, in order; the
    filter in force is the empty object or the data of one of the
    successful submits; and the query is empty or one of the typed
    values. *)
Theorem state_after_events `{PrismaEnums} (events : list Explore.Event) :
  let s := Explore.run Explore.initial events in
  Explore.toasts s = omap Explore.toast_of events
  ∧ (Explore.filter s = Filter.empty
     ∨ ∃ data, Explore.submit data ∈ events ∧ Explore.filter s = data)
  ∧ (Explore.query s = EmptyString
     ∨ ∃ value, Explore.change value ∈ events ∧ Explore.query s = value).
Proof.
  cbv zeta. induction events as [|e events (IHt & IHf & IHq)] using rev_ind.
  { split; [done|]. split; by left. }
  rewrite run_snoc, omap_app.
  assert (Hf : Explore.filter (Explore.run Explore.initial events) = Filter.empty
               ∨ ∃ data, Explore.submit data ∈ events ++ [e]
                         ∧ Explore.filter (Explore.run Explore.initial events) = data).
  { destruct IHf as [? | (data & Hin & ?)]; [by left|].
    right. exists data. split; [|done]. apply elem_of_app. by left. }
  assert (Hq : Explore.query (Explore.run Explore.initial events) = EmptyString
               ∨ ∃ value, Explore.change value ∈ events ++ [e]
                          ∧ Explore.query (Explore.run Explore.initial events) = value).
  { destruct IHq as [? | (value & Hin & ?)]; [by left|].
    right. exists value. split; [|done]. apply elem_of_app. by left. }
  destruct e; simpl; rewrite ?IHt, ?app_nil_r; (split; [done|]); split;
    try done; try (by left).
  - right. eexists. split; [|done]. apply elem_of_app. right. by apply list_elem_of_singleton.
  - right. eexists. split; [|done]. apply elem_of_app. right. by apply list_elem_of_singleton.
Qed.

(** Type, open the dialog, fail a submit, apply the defaults. *)
Example state_after_events_sample :
  let s := Explore.run Explore.initial
             [Explore.change "an"; Explore.click_filters;
              Explore.submit_invalid [("school", Some "Required")];
              Explore.submit defaultValues] in
  Explore.query s = "an" ∧ Explore.filter s = defaultValues
  ∧ Explore.open s = false
  ∧ Explore.toasts s = ["school: Required" +:+ line_feed]
  ∧ Explore.shown sample_profiles s = [].
Proof. repeat split. Qed.

Lemma run_app `{PrismaEnums} (s : Explore.State) (events later : list Explore.Event) :
  Explore.run s (events ++ later) = Explore.run (Explore.run s events) later.
Proof. unfold Explore.run. apply fold_left_app. Qed.

Lemma run_keeps_filter `{PrismaEnums} (s : Explore.State) (later : list Explore.Event) :
  Forall (λ e, Explore.is_submit e = false ∧ e ≠ Explore.click_reset) later →
  Explore.filter (Explore.run s later) = Explore.filter s.
Proof.
  induction later as [|e later IH] using rev_ind; intros Hquiet; [done|].
  apply Forall_app in Hquiet as [Hquiet He]. rewrite Forall_singleton in He.
  destruct He as [Hsubmit Hreset].
  rewrite run_snoc. destruct e; simpl in *; try (by apply IH); done.
Qed.

(** X12.  The last successful submit wins: once a filter has been applied,
    typing, opening and closing the dialog and failed submits leave it in
    force, from whatever state it was applied, and the page shows the
    loaded profiles filtered by it and by the current query. *)
Theorem last_submit_wins `{PrismaEnums} (profiles : list Profile.t)
    (s : Explore.State) (events later : list Explore.Event) (data : Filter.t) :
  Forall (λ e, Explore.is_submit e = false ∧ e ≠ Explore.click_reset) later →
  let s' := Explore.run s (events ++ Explore.submit data :: later) in
  Explore.filter s' = data
  ∧ Explore.shown profiles s' = filteredProfiles profiles (Explore.query s') data.
Proof.
  intros Hquiet. cbv zeta.
  assert (Hdata : Explore.filter
                    (Explore.run s (events ++ Explore.submit data :: later)) = data).
  { rewrite run_app. change (Explore.submit data :: later)
      with ([Explore.submit data] ++ later).
    rewrite run_app. by rewrite run_keeps_filter. }
  split; [exact Hdata|]. unfold Explore.shown. by rewrite Hdata.
Qed.

Lemma last_submit_wins_witness :
  let later := [Explore.change "b"; Explore.click_filters;
                Explore.submit_invalid []; Explore.close] in
  Forall (λ e, Explore.is_submit e = false ∧ e ≠ Explore.click_reset) later
  ∧ Explore.filter
      (Explore.run Explore.initial
         ([Explore.click_reset] ++ Explore.submit (only_minimum_neatness 2) :: later))
    = only_minimum_neatness 2.
Proof.
  intros later.
  assert (Hquiet :
    Forall (λ e, Explore.is_submit e = false ∧ e ≠ Explore.click_reset) later).
  { repeat constructor; discriminate. }
  split; [exact Hquiet|].
  exact (proj1 (last_submit_wins sample_profiles Explore.initial
                  [Explore.click_reset] later (only_minimum_neatness 2) Hquiet)).
Defined.

(** * Further properties of the group-management page *)

Lemma enabled_GroupCard (membership : Membership.t) :
  enabled (GroupCard membership)
  = List.filter (canRemoveMember membership)
      (Group.members (Membership.group membership)).
Proof.
  unfold enabled, GroupCard, canRemoveMember.
  induction (Group.members (Membership.group membership)) as [|member members IH];
    simpl; [done|].
  destruct (remove_disabled membership member); simpl; by rewrite IH.
Qed.

Lemma two_elements {A : Type} (x y : A) (xs : list A) :
  x ∈ xs → y ∈ xs → x ≠ y → (1 < length xs)%nat.
Proof.
  destruct xs as [|a [|b xs]]; simpl; [by intros ?%elem_of_nil| |lia].
  intros ->%list_elem_of_singleton ->%list_elem_of_singleton. done.
Qed.

Lemma list_filter_shorter {A : Type} (cb : A → bool) (x : A) (xs : list A) :
  x ∈ xs → cb x = false → (length (List.filter cb xs) < length xs)%nat.
Proof.
  intros Hin Hx. induction Hin as [x xs | x y xs Hin IH]; simpl.
  - rewrite Hx. pose proof (List.filter_length_le cb xs). lia.
  - specialize (IH Hx). destruct (cb y); simpl; lia.
Qed.

(** X13.  The two exit buttons are never both enabled.  None is enabled
    exactly for an ADMIN whose group lists more than one member; otherwise
    exactly one is: Leave for a MEMBER, Delete for an ADMIN alone in the
    group.  A button is enabled exactly when the action is permitted. *)
Theorem exit_buttons (membership : Membership.t) :
  let size := length (Group.members (Membership.group membership)) in
  (Delete ∈ enabled (ActionCard membership) ↔ canDeleteGroup membership = true)
  ∧ (Leave ∈ enabled (ActionCard membership) ↔ canLeaveGroup membership = true)
  ∧ (canDeleteGroup membership && canLeaveGroup membership = false)
  ∧ (enabled (ActionCard membership) = []
     ↔ Membership.role membership = ADMIN ∧ (1 < size)%nat)
  ∧ (Membership.role membership = MEMBER →
     enabled (ActionCard membership) = [Leave])
  ∧ (Membership.role membership = ADMIN → (size ≤ 1)%nat →
     enabled (ActionCard membership) = [Delete]).
Proof.
  intros size.
  unfold ActionCard, enabled, canDeleteGroup, canLeaveGroup, delete_rendered,
    delete_disabled, leave_disabled. fold size.
  destruct (Membership.role membership) eqn:Hrole; simpl;
    destruct (Nat.ltb_spec 1 size) as [Hsize | Hsize]; simpl;
    repeat split; intros; try done; try lia;
    repeat match goal with
           | H : _ ∈ [] |- _ => apply elem_of_nil in H; done
           | H : _ ∈ [_] |- _ => apply list_elem_of_singleton in H; try done
           | |- _ ∈ [_] => by apply list_elem_of_singleton
           | H : _ ∧ _ |- _ => destruct H
           end; try done; try lia.
Qed.

Lemma exit_buttons_witness :
  let membership := sample_membership MEMBER [("u2", ADMIN)] in
  Membership.role membership = MEMBER ∧ enabled (ActionCard membership) = [Leave].
Proof.
  intros membership.
  destruct (exit_buttons membership) as (_ & _ & _ & _ & Hmember & _).
  split; [reflexivity|]. apply Hmember. reflexivity.
Defined.

(** X14.  The role test in the Delete button's [disabled] attribute never
    decides: wherever the button is rendered, it is disabled exactly when
    the group lists more than one member. *)
Theorem delete_role_test_is_dead (membership : Membership.t) (disabled : bool) :
  (Delete, disabled) ∈ ActionCard membership →
  disabled = (1 <? length (Group.members (Membership.group membership)))%nat.
Proof.
  unfold ActionCard, delete_rendered, delete_disabled.
  destruct (bool_decide (Membership.role membership = ADMIN)); simpl.
  - intros [[= <-] | Hleave%list_elem_of_singleton]%elem_of_cons; [done|].
    discriminate.
  - intros Hleave%list_elem_of_singleton. discriminate.
Qed.

Lemma delete_role_test_is_dead_witness :
  let membership := sample_membership ADMIN [("u2", MEMBER)] in
  (Delete, true) ∈ ActionCard membership
  ∧ true = (1 <? length (Group.members (Membership.group membership)))%nat.
Proof.
  intros membership.
  assert (Hin : (Delete, true) ∈ ActionCard membership) by (left).
  split; [exact Hin|].
  exact (delete_role_test_is_dead membership true Hin).
Defined.

(** X15.  In a group that lists the acting user, the user's own Remove
    button is disabled, so fewer buttons are enabled than members are
    listed; none is enabled when the user is the only member, in
    particular whenever deleting the group is permitted. *)
Theorem own_row_is_disabled (membership : Membership.t) :
  lists_self membership →
  let members := Group.members (Membership.group membership) in
  (length (enabled (GroupCard membership)) < length members)%nat
  ∧ ((length members ≤ 1)%nat → enabled (GroupCard membership) = [])
  ∧ (canDeleteGroup membership = true → enabled (GroupCard membership) = []).
Proof.
  intros (self & Hin & Hself). cbv zeta.
  assert (Hshort : (length (enabled (GroupCard membership))
                    < length (Group.members (Membership.group membership)))%nat).
  { rewrite enabled_GroupCard. apply (list_filter_shorter _ self); [done|].
    unfold canRemoveMember, remove_disabled.
    by rewrite (bool_decide_eq_true_2 _ Hself), orb_true_r. }
  assert (Hsole : (length (Group.members (Membership.group membership)) ≤ 1)%nat →
                  enabled (GroupCard membership) = []).
  { intros Hsize. apply length_zero_iff_nil. lia. }
  split; [exact Hshort|]. split; [exact Hsole|].
  intros Hdelete. apply Hsole.
  unfold canDeleteGroup, delete_disabled in Hdelete.
  apply andb_true_iff in Hdelete as [_ Hdelete].
  apply negb_true_iff, orb_false_iff in Hdelete as [_ Hsize].
  by apply Nat.ltb_ge.
Qed.

Lemma own_row_is_disabled_witness :
  let membership := sample_membership ADMIN [] in
  lists_self membership ∧ enabled (GroupCard membership) = [].
Proof.
  intros membership.
  assert (Hself : lists_self membership).
  { exists (sample_member "u1" ADMIN). split; [left | reflexivity]. }
  split; [exact Hself|].
  apply (proj1 (proj2 (own_row_is_disabled membership Hself))). simpl. lia.
Defined.

(** X16.  Two admins lock each other in: an ADMIN whose group lists
    another ADMIN besides the acting user has no enabled exit button, and
    the other ADMIN's Remove button is disabled. *)
Theorem two_admins_are_locked (membership : Membership.t) (other : Member.t) :
  Membership.role membership = ADMIN →
  lists_self membership →
  other ∈ Group.members (Membership.group membership) →
  Member.role other = ADMIN →
  Member.userId other ≠ Membership.userId membership →
  enabled (ActionCard membership) = []
  ∧ canDeleteGroup membership = false
  ∧ canLeaveGroup membership = false
  ∧ other ∉ enabled (GroupCard membership).
Proof.
  intros Hadmin (self & Hin & Hself) Hother Hrole Hdistinct.
  assert (Hsize : (1 < length (Group.members (Membership.group membership)))%nat).
  { apply (two_elements self other); [done..|]. intros ->. done. }
  unfold ActionCard, enabled, canDeleteGroup, canLeaveGroup, delete_rendered,
    delete_disabled, leave_disabled.
  rewrite (bool_decide_eq_true_2 _ Hadmin).
  apply Nat.ltb_lt in Hsize. rewrite Hsize. simpl.
  repeat split.
  fold (enabled (GroupCard membership)). rewrite enabled_GroupCard.
  rewrite list_elem_of_In, filter_In. intros [_ Hremovable].
  unfold canRemoveMember, remove_disabled in Hremovable.
  by rewrite (bool_decide_eq_true_2 _ Hrole) in Hremovable.
Qed.

Lemma two_admins_are_locked_witness :
  let membership := sample_membership ADMIN [("u2", ADMIN)] in
  let other := sample_member "u2" ADMIN in
  enabled (ActionCard membership) = []
  ∧ canDeleteGroup membership = false
  ∧ canLeaveGroup membership = false
  ∧ other ∉ enabled (GroupCard membership).
Proof.
  intros membership other.
  apply (two_admins_are_locked membership other).
  - reflexivity.
  - exists (sample_member "u1" ADMIN). split; [left | reflexivity].
  - right. left.
  - reflexivity.
  - discriminate.
Defined.

(** One typed profile: the filter returns normally, with the list the
    callback's answers give. *)
Lemma filter_raises_iff_witness :
  let raws := [RawProfile.of_profile (sample_profile (Some "Ann") None "UCLA" 5 5)] in
  filteredProfiles_raw raws "ann" Filter.empty = Js.Ok raws
  ∧ raws = List.filter (kept_raw "ann" Filter.empty) raws.
Proof.
  intros raws.
  assert (Hok : filteredProfiles_raw raws "ann" Filter.empty = Js.Ok raws)
    by reflexivity.
  split; [exact Hok|].
  exact (proj2 (filter_raises_iff raws "ann" Filter.empty) raws Hok).
Defined.

(** A profile without school raises only when nothing answers before the
    school is read. *)
Example null_school_samples :
  callback_raw EmptyString Filter.empty anonymous_raw_profile = Js.TypeError
  ∧ callback_raw EmptyString (only_minimum_neatness 0) anonymous_raw_profile
    = Js.Ok false
  ∧ filteredProfiles_raw
      [RawProfile.of_profile (sample_profile (Some "Ann") None "UCLA" 5 5);
       anonymous_raw_profile]
      "ann" Filter.empty
    = Js.TypeError.
Proof. repeat split. Qed.
